(** * project_ops.py: the project / track membership store

    A shallow embedding of [scripts/project_ops.py] and the properties of
    its four commands ([create_project], [add_track], [remove_track],
    [list_tracks]).

    Modelling conventions.
    - The three CSV files are the state.  A file is modelled as the list
      of rows that [csv.DictReader] yields from it, one record per row,
      every column a string; the header is the fixed column list of the
      file, and [csv.DictWriter.writerows] followed by a later
      [DictReader] is the identity on rows (CSV quoting is not modelled).
    - Strings are [Stdlib.Strings.String.string], that is sequences of
      8-bit characters; [int()] is modelled on ASCII digits and ASCII
      white space (Unicode digits and the interpreter's limit on the
      number of digits are outside the model).
    - [sys.exit(1)] after an error message and an uncaught [ValueError]
      from [int()] both end the command: they are the failures of an
      error monad layered over the state monad of the files, so that the
      files a failed command leaves behind are part of its result.
    - [datetime.now().strftime('%Y-%m-%d')] is the parameter [today] of a
      command; the clock reads of one command fall on the same day.
    - Text printed on standard output is not modelled, except that
      [list_tracks] returns the sorted list it prints. *)

From Stdlib Require Import String Ascii List ZArith NArith Lia Bool Arith.
From Stdlib Require Import Sorting.Sorted Sorting.Permutation.
From ExtLib Require Import Structures.Monad Structures.MonadState
  Structures.MonadExc Data.Monads.StateMonad Data.Monads.EitherMonad.
Import ListNotations.
Import MonadNotation.

Local Open Scope string_scope.
Local Open Scope monad_scope.
Local Open Scope list_scope.

(* ================================================================== *)
(** * Python built-ins used by the script *)
(* ================================================================== *)

Module Py.

(** [s.replace(c, '')] for a one-character pattern [c]. *)
Fixpoint remove_char (c : ascii) (s : string) : string :=
  match s with
  | EmptyString => EmptyString
  | String a r =>
      if Ascii.eqb a c then remove_char c r else String a (remove_char c r)
  end.

(** White space skipped by [int()] on both ends of its argument. *)
Definition is_space (a : ascii) : bool :=
  let n := N_of_ascii a in
  ((9 <=? n) && (n <=? 13) || (28 <=? n) && (n <=? 32))%N.

Fixpoint lstrip (s : string) : string :=
  match s with
  | EmptyString => EmptyString
  | String a r => if is_space a then lstrip r else s
  end.

Fixpoint rstrip (s : string) : string :=
  match s with
  | EmptyString => EmptyString
  | String a r =>
      match rstrip r with
      | EmptyString => if is_space a then EmptyString else String a EmptyString
      | r' => String a r'
      end
  end.

Definition strip (s : string) : string := rstrip (lstrip s).

Definition digit_of (a : ascii) : option N :=
  let n := N_of_ascii a in
  if ((48 <=? n) && (n <=? 57))%N then Some (n - 48)%N else None.

Definition ascii_of_digit (d : N) : ascii := ascii_of_N (48 + d).

(** The digits of a decimal literal, most significant first, with the
    accumulator [acc] of the digits read so far.  A single underscore is
    accepted between two digits; [prev] tells whether the character just
    read was a digit. *)
Fixpoint int_digits (acc : N) (prev : bool) (s : string) : option N :=
  match s with
  | EmptyString => if prev then Some acc else None
  | String a r =>
      match digit_of a with
      | Some d => int_digits (10 * acc + d) true r
      | None =>
          if Ascii.eqb a "_" && prev then int_digits acc false r else None
      end
  end.

(** [int(s)] for a string [s]; [None] is [ValueError]. *)
Definition int (s : string) : option Z :=
  match strip s with
  | EmptyString => None
  | String a r =>
      if Ascii.eqb a "+" then option_map Z.of_N (int_digits 0 false r)
      else if Ascii.eqb a "-"
      then option_map (fun n => (- Z.of_N n)%Z) (int_digits 0 false r)
      else option_map Z.of_N (int_digits 0 false (String a r))
  end.

(** Decimal digits of a natural number, pushed in front of [acc]; one
    unit of [fuel] per digit. *)
Fixpoint digits_aux (fuel : nat) (n : N) (acc : string) : string :=
  match fuel with
  | O => acc
  | S fuel' =>
      let acc' := String (ascii_of_digit (n mod 10)) acc in
      match (n / 10)%N with
      | N0 => acc'
      | q => digits_aux fuel' q acc'
      end
  end.

Definition digits (n : N) : string :=
  digits_aux (S (N.to_nat (N.log2 n))) n EmptyString.

(** [str(z)] for an integer [z]. *)
Definition str (z : Z) : string :=
  match z with
  | Zneg p => String "-" (digits (Npos p))
  | _ => digits (Z.to_N z)
  end.

Fixpoint zeros (k : nat) (s : string) : string :=
  match k with
  | O => s
  | S k' => String "0" (zeros k' s)
  end.

(** [f'{z:03d}']: at least three characters, sign included, filled with
    zeros after the sign. *)
Definition format_03d (z : Z) : string :=
  match z with
  | Zneg p =>
      let d := digits (Npos p) in String "-" (zeros (2 - String.length d) d)
  | _ => let d := digits (Z.to_N z) in zeros (3 - String.length d) d
  end.

(** A string of ASCII digits. *)
Fixpoint all_digits (s : string) : bool :=
  match s with
  | EmptyString => true
  | String a r =>
      match digit_of a with Some _ => all_digits r | None => false end
  end.

End Py.

(* ================================================================== *)
(** * The three tables *)
(* ================================================================== *)

(** One module per file; the fields of [row] are the columns that
    [csv.DictReader] gives a row, under their names in the header. *)

(** [tracks.csv].  The script reads the columns [id] and [track_title]
    only; the other ten columns are never looked at. *)
Module Track.
Record row := mk {
  id : string;
  track_title : string
}.
End Track.

(** [projects.csv]. *)
Module Project.
Record row := mk {
  project_id : string;
  name : string;
  description : string;
  for_field : string;
  keywords : string;
  created_on : string;
  modified_on : string;
  status : string;
  deadline : string;
  collaborators : string
}.

(** [row['modified_on'] = today] *)
Definition set_modified_on (today : string) (r : row) : row :=
  {| project_id := project_id r;
     name := name r;
     description := description r;
     for_field := for_field r;
     keywords := keywords r;
     created_on := created_on r;
     modified_on := today;
     status := status r;
     deadline := deadline r;
     collaborators := collaborators r |}.
End Project.

(** [project_tracks.csv]. *)
Module ProjectTrack.
Record row := mk {
  project_id : string;
  track_id : string;
  added_date : string;
  position : string;
  notes : string
}.
End ProjectTrack.

(** The files [TRACKS_FILE], [PROJECTS_FILE] and [PROJECT_TRACKS_FILE]. *)
Record Store := mkStore {
  TRACKS_FILE : list Track.row;
  PROJECTS_FILE : list Project.row;
  PROJECT_TRACKS_FILE : list ProjectTrack.row
}.

(* ================================================================== *)
(** * Commands: state of the files, and failure *)
(* ================================================================== *)

(** How a command ends when it does not return. *)
Inductive failure :=
| ProjectDoesNotExist   (* "Project ... does not exist", exit status 1 *)
| TrackDoesNotExist     (* "Track ... does not exist in catalog", exit 1 *)
| AlreadyInProject      (* "Track ... is already in project ...", exit 1 *)
| NotFoundInProject     (* "Track ... not found in project ...", exit 1 *)
| ValueError.           (* uncaught exception of [int()] *)

Definition Script := eitherT failure (state Store).

(** Running a command on the files [s]: how it ended, and the files it
    left. *)
Definition run {A} (c : Script A) (s : Store) : (failure + A) * Store :=
  runState (unEitherT c) s.

Definition outcome {A} (c : Script A) (s : Store) : failure + A :=
  fst (run c s).

Definition files_after {A} (c : Script A) (s : Store) : Store :=
  snd (run c s).

(** [with open(FILE, 'r') as f: ... list(csv.DictReader(f))] *)
Definition read_tracks : Script (list Track.row) :=
  s <- get ;; ret (TRACKS_FILE s).

Definition read_projects : Script (list Project.row) :=
  s <- get ;; ret (PROJECTS_FILE s).

Definition read_project_tracks : Script (list ProjectTrack.row) :=
  s <- get ;; ret (PROJECT_TRACKS_FILE s).

(** [with open(FILE, 'w', newline='') as f: ... writer.writerows(rows)] *)
Definition write_projects (rows : list Project.row) : Script unit :=
  s <- get ;;
  put {| TRACKS_FILE := TRACKS_FILE s;
         PROJECTS_FILE := rows;
         PROJECT_TRACKS_FILE := PROJECT_TRACKS_FILE s |}.

Definition write_project_tracks (rows : list ProjectTrack.row) : Script unit :=
  s <- get ;;
  put {| TRACKS_FILE := TRACKS_FILE s;
         PROJECTS_FILE := PROJECTS_FILE s;
         PROJECT_TRACKS_FILE := rows |}.

(** [print(message); sys.exit(1)], where [e] stands for the message. *)
Definition exit {A} (e : failure) : Script A := raise e.

(** [int(x)] inside a command. *)
Definition int_or_raise (x : string) : Script Z :=
  match Py.int x with
  | Some z => ret z
  | None => raise ValueError
  end.

(* ================================================================== *)
(** * The functions of [project_ops.py] *)
(* ================================================================== *)

(** The loop of [get_next_project_id] over the rows read, from the
    running maximum [max_id]; [None] when an [int()] raises. *)
Fixpoint max_id_loop (rows : list Project.row) (max_id : Z) : option Z :=
  match rows with
  | [] => Some max_id
  | row :: rest =>
      match Py.int (Py.remove_char "P" (Project.project_id row)) with
      | Some pid => max_id_loop rest (Z.max max_id pid)
      | None => None
      end
  end.

Definition get_next_project_id : Script string :=
  rows <- read_projects ;;
  match max_id_loop rows 0 with
  | Some max_id => ret ("P" ++ Py.format_03d (max_id + 1))%string
  | None => raise ValueError
  end.

Definition validate_track_exists (track_id : string) : Script bool :=
  rows <- read_tracks ;;
  ret (existsb (fun row => Track.id row =? track_id) rows).

Definition validate_project_exists (project_id : string) : Script bool :=
  rows <- read_projects ;;
  ret (existsb (fun row => Project.project_id row =? project_id) rows).

(** The loop of [get_next_position], from the running maximum
    [max_pos]; [int()] is applied to the rows of the project only. *)
Fixpoint max_pos_loop (project_id : string) (rows : list ProjectTrack.row)
    (max_pos : Z) : option Z :=
  match rows with
  | [] => Some max_pos
  | row :: rest =>
      if ProjectTrack.project_id row =? project_id then
        match Py.int (ProjectTrack.position row) with
        | Some p => max_pos_loop project_id rest (Z.max max_pos p)
        | None => None
        end
      else max_pos_loop project_id rest max_pos
  end.

Definition get_next_position (project_id : string) : Script Z :=
  rows <- read_project_tracks ;;
  match max_pos_loop project_id rows 0 with
  | Some max_pos => ret (max_pos + 1)%Z
  | None => raise ValueError
  end.

(** [r['project_id'] == project_id and r['track_id'] == track_id] *)
Definition is_membership (project_id track_id : string)
    (r : ProjectTrack.row) : bool :=
  (ProjectTrack.project_id r =? project_id)
  && (ProjectTrack.track_id r =? track_id).

Definition track_in_project (project_id track_id : string) : Script bool :=
  rows <- read_project_tracks ;;
  ret (existsb (is_membership project_id track_id) rows).

Definition get_track_title (track_id : string) : Script string :=
  rows <- read_tracks ;;
  match find (fun row => Track.id row =? track_id) rows with
  | Some row => ret (Track.track_title row)
  | None => ret "Unknown"
  end.

Definition get_project_name (project_id : string) : Script string :=
  rows <- read_projects ;;
  match find (fun row => Project.project_id row =? project_id) rows with
  | Some row => ret (Project.name row)
  | None => ret "Unknown"
  end.

(** The loop of [update_project_modified]: the first row of the project
    gets the date, and [break] leaves the rows after it alone. *)
Fixpoint touch_first (project_id today : string) (rows : list Project.row)
    : list Project.row :=
  match rows with
  | [] => []
  | row :: rest =>
      if Project.project_id row =? project_id
      then Project.set_modified_on today row :: rest
      else row :: touch_first project_id today rest
  end.

Definition update_project_modified (today project_id : string) : Script unit :=
  rows <- read_projects ;;
  write_projects (touch_first project_id today rows).

Definition create_project (today name description for_field keywords
    deadline collaborators : string) : Script string :=
  project_id <- get_next_project_id ;;
  let new_row :=
    {| Project.project_id := project_id;
       Project.name := name;
       Project.description := description;
       Project.for_field := for_field;
       Project.keywords := keywords;
       Project.created_on := today;
       Project.modified_on := today;
       Project.status := "Active";
       Project.deadline := deadline;
       Project.collaborators := collaborators |} in
  rows <- read_projects ;;
  write_projects (rows ++ [new_row]) ;;
  ret project_id.

Definition add_track (today project_id track_id notes : string)
    : Script unit :=
  project_exists <- validate_project_exists project_id ;;
  if negb project_exists then exit ProjectDoesNotExist else
  track_exists <- validate_track_exists track_id ;;
  if negb track_exists then exit TrackDoesNotExist else
  present <- track_in_project project_id track_id ;;
  if present then exit AlreadyInProject else
  position <- get_next_position project_id ;;
  let new_row :=
    {| ProjectTrack.project_id := project_id;
       ProjectTrack.track_id := track_id;
       ProjectTrack.added_date := today;
       ProjectTrack.position := Py.str position;
       ProjectTrack.notes := notes |} in
  rows <- read_project_tracks ;;
  write_project_tracks (rows ++ [new_row]) ;;
  update_project_modified today project_id ;;
  track_title <- get_track_title track_id ;;
  ret tt.

Definition remove_track (today project_id track_id : string) : Script unit :=
  rows <- read_project_tracks ;;
  let original_len := length rows in
  let rows :=
    filter (fun r => negb (is_membership project_id track_id r)) rows in
  if (length rows =? original_len)%nat then exit NotFoundInProject else
  write_project_tracks rows ;;
  update_project_modified today project_id ;;
  track_title <- get_track_title track_id ;;
  ret tt.

(** An element of the list [tracks] that [list_tracks] builds. *)
Module Entry.
Record t := mk {
  position : Z;
  track_id : string;
  title : string;
  added_date : string;
  notes : string
}.
End Entry.

(** The loop of [list_tracks] over the rows of [project_tracks.csv]. *)
Fixpoint collect_tracks (project_id : string) (rows : list ProjectTrack.row)
    : Script (list Entry.t) :=
  match rows with
  | [] => ret []
  | row :: rest =>
      if ProjectTrack.project_id row =? project_id then
        track_title <- get_track_title (ProjectTrack.track_id row) ;;
        position <- int_or_raise (ProjectTrack.position row) ;;
        tracks <- collect_tracks project_id rest ;;
        ret ({| Entry.position := position;
                Entry.track_id := ProjectTrack.track_id row;
                Entry.title := track_title;
                Entry.added_date := ProjectTrack.added_date row;
                Entry.notes := ProjectTrack.notes row |} :: tracks)
      else collect_tracks project_id rest
  end.

(** [tracks.sort(key=lambda x: x['position'])]: the sort is stable, an
    entry goes in front of the entries of the same position that came
    after it. *)
Fixpoint insert_by_position (x : Entry.t) (l : list Entry.t) : list Entry.t :=
  match l with
  | [] => [x]
  | y :: l' =>
      if (Entry.position x <=? Entry.position y)%Z then x :: y :: l'
      else y :: insert_by_position x l'
  end.

Fixpoint sort_by_position (l : list Entry.t) : list Entry.t :=
  match l with
  | [] => []
  | x :: l' => insert_by_position x (sort_by_position l')
  end.

(** [list_tracks] prints the entries of [tracks] in order; they are the
    result here. *)
Definition list_tracks (project_id : string) : Script (list Entry.t) :=
  project_exists <- validate_project_exists project_id ;;
  if negb project_exists then exit ProjectDoesNotExist else
  project_name <- get_project_name project_id ;;
  rows <- read_project_tracks ;;
  tracks <- collect_tracks project_id rows ;;
  ret (sort_by_position tracks).

(* ================================================================== *)
(** * The scripts around [project_ops.py] *)
(* ================================================================== *)

(** ** [test_workflow.py], step 5 *)


(** ** [update_new_year_project.py] *)

Module NewYear.

(** The files of [data/] that the script reads and writes; [None] is a
    file that does not exist. *)
Record Files := mkFiles {
  projects_csv : list Project.row;
  projects_updated_csv : option (list Project.row);
  projects_backup_csv : option (list Project.row)
}.

(** The four assignments to the row of P012. *)
Definition retitle (today : string) (project : Project.row) : Project.row :=
  {| Project.project_id := Project.project_id project;
     Project.name := "Swinging into the New Year";
     Project.description :=
       "Upbeat, swing-inspired celebration music for New Year's Eve party. Classic rock and roll, rockabilly, and party anthems for the ultimate countdown celebration.";
     Project.for_field := Project.for_field project;
     Project.keywords :=
       "new years;swing;party;rockabilly;celebration;countdown;upbeat;rock and roll;dancing;festive";
     Project.created_on := Project.created_on project;
     Project.modified_on := today;
     Project.status := Project.status project;
     Project.deadline := Project.deadline project;
     Project.collaborators := Project.collaborators project |}.

(** The loop over [projects], which stops at the first row of P012. *)
Fixpoint update_P012 (today : string) (projects : list Project.row)
    : list Project.row :=
  match projects with
  | [] => []
  | project :: rest =>
      if Project.project_id project =? "P012"
      then retitle today project :: rest
      else project :: update_P012 today rest
  end.

(** [update_project()]: the table is written to
    [projects_updated.csv], [projects.csv] is copied to
    [projects_backup.csv], and [projects_updated.csv] is moved onto
    [projects.csv]. *)
Definition update_project (today : string) (f : Files) : Files :=
  let projects := update_P012 today (projects_csv f) in
  let written :=
    {| projects_csv := projects_csv f;
       projects_updated_csv := Some projects;
       projects_backup_csv := projects_backup_csv f |} in
  let copied :=
    {| projects_csv := projects_csv written;
       projects_updated_csv := projects_updated_csv written;
       projects_backup_csv := Some (projects_csv written) |} in
  match projects_updated_csv copied with
  | Some moved =>
      {| projects_csv := moved;
         projects_updated_csv := None;
         projects_backup_csv := projects_backup_csv copied |}
  | None => copied
  end.

End NewYear.

(** ** [test_workflow.py] and [test_detailed.py]: a line of [tracks.csv] *)

(** String methods that the two scripts apply to a line. *)
Module PyStr.

(** [s.split(c)] for a one-character separator [c]: never empty, one
    more piece than [s] has separators. *)
Fixpoint split (c : ascii) (s : string) : list string :=
  match s with
  | EmptyString => [EmptyString]
  | String a r =>
      match split c r with
      | [] => [String a EmptyString]
      | piece :: pieces =>
          if Ascii.eqb a c then EmptyString :: piece :: pieces
          else String a piece :: pieces
      end
  end.

Fixpoint lstrip_char (c : ascii) (s : string) : string :=
  match s with
  | EmptyString => EmptyString
  | String a r => if Ascii.eqb a c then lstrip_char c r else s
  end.

Fixpoint rstrip_char (c : ascii) (s : string) : string :=
  match s with
  | EmptyString => EmptyString
  | String a r =>
      match rstrip_char c r with
      | EmptyString =>
          if Ascii.eqb a c then EmptyString else String a EmptyString
      | r' => String a r'
      end
  end.

(** [s.strip(c)] for a one-character set [c]. *)
Definition strip_char (c : ascii) (s : string) : string :=
  rstrip_char c (lstrip_char c s).

End PyStr.

(** The double quote, the character that [get_track_details] strips
    from the description. *)
Definition double_quote : ascii := "034"%char.

(** The dictionary that [get_track_details] returns. *)
Module Details.
Record t := mk {
  id : string;
  track_title : string;
  track_description : string;
  bpm : string;
  duration : string;
  album_title : string;
  library_name : string;
  composer : string;
  genre : string;
  additional_genres : string;
  apm_release_date : string;
  has_stems : string
}.
End Details.

(** [fields[i]] for an index within the list. *)
Definition field (fields : list string) (i : nat) : string :=
  nth i fields EmptyString.

(** [get_track_details] of [test_workflow.py], from [result.stdout],
    the output of [grep "{track_id}" data/tracks.csv]; [None] is
    Python's [None]. *)
Definition get_track_details (stdout : string) : option Details.t :=
  match stdout with
  | EmptyString => None
  | _ =>
      let fields := PyStr.split "," (Py.strip stdout) in
      if (12 <=? length fields)%nat then
        Some {| Details.id := field fields 0;
                Details.track_title := field fields 1;
                Details.track_description :=
                  PyStr.strip_char double_quote (field fields 2);
                Details.bpm := field fields 3;
                Details.duration := field fields 4;
                Details.album_title := field fields 5;
                Details.library_name := field fields 6;
                Details.composer := field fields 7;
                Details.genre := field fields 8;
                Details.additional_genres := field fields 9;
                Details.apm_release_date := field fields 10;
                Details.has_stems :=
                  if (11 <? length fields)%nat then field fields 11
                  else "unknown" |}
      else None
  end.

(** Step 3 of [test_detailed.py] on the line found for a track:
    [fields[-1] if len(fields) > 11 else 'unknown']. *)
Definition has_stems_of_line (line : string) : string :=
  let fields := PyStr.split "," line in
  if (11 <? length fields)%nat then last fields EmptyString else "unknown".

(** Steps 3 to 5 of [test_workflow.py].  [grep] gives, for a track
    identifier, the output of the [grep] process that
    [get_track_details] starts. *)
Section WorkflowSteps.

Variable grep : string -> string.




End WorkflowSteps.

(** ** [add_good_rockin_track.py]: the line appended to [tracks.csv] *)

Module GoodRockin.

(** [new_track['track_description']] *)
Definition track_description : string :=
  "High-energy rockabilly classic with driving rhythm guitar, upbeat drums, and party atmosphere. Perfect for celebration and retro vibes.".

(** [new_line] of [add_to_tracks_csv]: the twelve values joined by
    commas, the description between double quotes. *)
Definition new_line : string :=
  String.concat ","
    [ "RCK_RCK_0100_00101";
      "Good Rockin Tonight A";
      String double_quote
        (track_description ++ String double_quote EmptyString)%string;
      "148";
      "152";
      "ROCKABILLY CLASSICS VOL 1";
      "Rock Classics";
      "Roy Brown";
      "1353";
      "1352;2131;2161";
      "03/15/2024";
      "true" ].

End GoodRockin.

(* ================================================================== *)
(** * The vocabulary of the properties *)
(* ================================================================== *)

(** ** What the helper functions return *)

(** The results of [validate_project_exists], [validate_track_exists]
    and [track_in_project] on the files [s]. *)
Definition has_project (project_id : string) (s : Store) : bool :=
  existsb (fun row => Project.project_id row =? project_id) (PROJECTS_FILE s).

Definition has_track (track_id : string) (s : Store) : bool :=
  existsb (fun row => Track.id row =? track_id) (TRACKS_FILE s).

Definition has_membership (project_id track_id : string) (s : Store) : bool :=
  existsb (is_membership project_id track_id) (PROJECT_TRACKS_FILE s).

(** The title that [get_track_title] finds in the files [s]. *)
Definition title_in (s : Store) (track_id : string) : string :=
  match find (fun row => Track.id row =? track_id) (TRACKS_FILE s) with
  | Some row => Track.track_title row
  | None => "Unknown"
  end.

(** The row that [add_track] appends, for the position it computed. *)
Definition membership_row (today project_id track_id notes : string)
    (position : Z) : ProjectTrack.row :=
  {| ProjectTrack.project_id := project_id;
     ProjectTrack.track_id := track_id;
     ProjectTrack.added_date := today;
     ProjectTrack.position := Py.str position;
     ProjectTrack.notes := notes |}.

(** ** Project identifiers *)

(** [int(project_id.replace('P', ''))], the numeric suffix. *)
Definition id_number (project_id : string) : option Z :=
  Py.int (Py.remove_char "P" project_id).

Definition valid_project_id (project_id : string) : bool :=
  match id_number project_id with
  | Some n => (0 <=? n)%Z
  | None => false
  end.

(** A valid projects table: every [project_id] has a numeric suffix that
    is not negative. *)
Definition valid_projects (rows : list Project.row) : Prop :=
  forallb (fun row => valid_project_id (Project.project_id row)) rows = true.

Definition project_ids (s : Store) : list string :=
  map Project.project_id (PROJECTS_FILE s).

(** [m] is the maximum numeric suffix among [existing], and 0 when there
    is none. *)
Definition is_max_number (existing : list string) (m : Z) : Prop :=
  (forall pid n, In pid existing -> id_number pid = Some n -> (n <= m)%Z)
  /\ (existing = [] /\ m = 0%Z
      \/ exists pid, In pid existing /\ id_number pid = Some m).




(** The arguments of one [create_project] call, and the day of the call. *)
Record CreateArgs := mkCreateArgs {
  arg_today : string;
  arg_name : string;
  arg_description : string;
  arg_for_field : string;
  arg_keywords : string;
  arg_deadline : string;
  arg_collaborators : string
}.

Definition create_project_with (a : CreateArgs) : Script string :=
  create_project (arg_today a) (arg_name a) (arg_description a)
    (arg_for_field a) (arg_keywords a) (arg_deadline a) (arg_collaborators a).

(** A sequence of [create_project] calls; the identifiers returned. *)
Fixpoint create_projects (calls : list CreateArgs) : Script (list string) :=
  match calls with
  | [] => ret []
  | a :: rest =>
      pid <- create_project_with a ;;
      pids <- create_projects rest ;;
      ret (pid :: pids)
  end.

(** ** Existence of projects, tracks and memberships *)

Definition project_exists (project_id : string) (s : Store) : Prop :=
  exists row, In row (PROJECTS_FILE s) /\ Project.project_id row = project_id.

Definition track_exists (track_id : string) (s : Store) : Prop :=
  exists row, In row (TRACKS_FILE s) /\ Track.id row = track_id.

(** A row of [project_tracks.csv] with the composite key
    [(project_id, track_id)]. *)
Definition has_key (project_id track_id : string) (r : ProjectTrack.row)
    : Prop :=
  ProjectTrack.project_id r = project_id /\ ProjectTrack.track_id r = track_id.

Definition is_member (project_id track_id : string) (s : Store) : Prop :=
  exists r, In r (PROJECT_TRACKS_FILE s) /\ has_key project_id track_id r.

(** The row of a project: the first one with its identifier. *)
Definition project_row (project_id : string) (s : Store)
    : option Project.row :=
  find (fun row => Project.project_id row =? project_id) (PROJECTS_FILE s).

(** The projects table after a successful [add_track] or [remove_track]
    on [project_id]: the row of the project carries [today]. *)
Definition modified_today (today project_id : string) (s' : Store) : Prop :=
  exists row, project_row project_id s' = Some row
              /\ Project.project_id row = project_id
              /\ Project.modified_on row = today.

(** Every membership row references a project of [projects.csv]. *)
Definition memberships_reference_projects (s : Store) : Prop :=
  forall r, In r (PROJECT_TRACKS_FILE s) ->
  project_exists (ProjectTrack.project_id r) s.

(** The composite key of a membership row, and its uniqueness in a
    table. *)
Definition key (r : ProjectTrack.row) : string * string :=
  (ProjectTrack.project_id r, ProjectTrack.track_id r).

Definition unique_memberships (rows : list ProjectTrack.row) : Prop :=
  NoDup (map key rows).

(** ** Rows of the projects table *)

(** [row'] is [row] up to the column [modified_on]. *)
Definition same_but_modified_on (row row' : Project.row) : Prop :=
  Project.project_id row' = Project.project_id row
  /\ Project.name row' = Project.name row
  /\ Project.description row' = Project.description row
  /\ Project.for_field row' = Project.for_field row
  /\ Project.keywords row' = Project.keywords row
  /\ Project.created_on row' = Project.created_on row
  /\ Project.status row' = Project.status row
  /\ Project.deadline row' = Project.deadline row
  /\ Project.collaborators row' = Project.collaborators row.

(** The row number [i] is the first row of the project in [rows]. *)
Definition first_of_project (project_id : string) (rows : list Project.row)
    (i : nat) : Prop :=
  (exists row, nth_error rows i = Some row
               /\ Project.project_id row = project_id)
  /\ forall j row, (j < i)%nat -> nth_error rows j = Some row ->
       Project.project_id row <> project_id.

(** ** Positions *)

(** The rows of a project in [project_tracks.csv], in file order. *)
Definition rows_of (project_id : string) (rows : list ProjectTrack.row)
    : list ProjectTrack.row :=
  filter (fun r => ProjectTrack.project_id r =? project_id) rows.

(** [int(row['position'])] of a row. *)
Definition position_number (r : ProjectTrack.row) : option Z :=
  Py.int (ProjectTrack.position r).

(** The positions of the rows of a project, in file order. *)
Definition positions_of (project_id : string) (rows : list ProjectTrack.row)
    : list (option Z) :=
  map position_number (rows_of project_id rows).



(** ** Listings *)


(** The title that [get_track_title] gives: the title of the first row
    of [tracks.csv] with the identifier, "Unknown" when there is none. *)
Definition resolved_title (s : Store) (track_id title : string) : Prop :=
  (exists t, find (fun row => Track.id row =? track_id) (TRACKS_FILE s)
             = Some t
             /\ Track.id t = track_id /\ title = Track.track_title t)
  \/ (~ track_exists track_id s /\ title = "Unknown").

(** The entry [e] lists the membership row [r]. *)
Definition lists_row (s : Store) (r : ProjectTrack.row) (e : Entry.t)
    : Prop :=
  position_number r = Some (Entry.position e)
  /\ Entry.track_id e = ProjectTrack.track_id r
  /\ Entry.added_date e = ProjectTrack.added_date r
  /\ Entry.notes e = ProjectTrack.notes r
  /\ resolved_title s (ProjectTrack.track_id r) (Entry.title e).

(** The dictionary that the loop of [list_tracks] appends for [r]. *)
Definition entry_of (s : Store) (r : ProjectTrack.row) (p : Z) : Entry.t :=
  {| Entry.position := p;
     Entry.track_id := ProjectTrack.track_id r;
     Entry.title := title_in s (ProjectTrack.track_id r);
     Entry.added_date := ProjectTrack.added_date r;
     Entry.notes := ProjectTrack.notes r |}.

(** The list [tracks] before the sort; [None] when an [int()] raises. *)
Fixpoint entries_of (s : Store) (project_id : string)
    (rows : list ProjectTrack.row) : option (list Entry.t) :=
  match rows with
  | [] => Some []
  | row :: rest =>
      if ProjectTrack.project_id row =? project_id then
        match position_number row with
        | None => None
        | Some p => option_map (cons (entry_of s row p))
                      (entries_of s project_id rest)
        end
      else entries_of s project_id rest
  end.

(** ** Histories of calls *)

(** A call of one of the three commands that write. *)
Inductive command :=
| CreateProject (a : CreateArgs)
| AddTrack (today project_id track_id notes : string)
| RemoveTrack (today project_id track_id : string).

(** The files after the call, whether it succeeded or failed. *)
Definition exec (c : command) (s : Store) : Store :=
  match c with
  | CreateProject a => files_after (create_project_with a) s
  | AddTrack today project_id track_id notes =>
      files_after (add_track today project_id track_id notes) s
  | RemoveTrack today project_id track_id =>
      files_after (remove_track today project_id track_id) s
  end.

(** The states reached from [s0] by calls taken among [allowed]. *)
Inductive reachable (allowed : command -> Prop) (s0 : Store)
    : Store -> Prop :=
| reach_start : reachable allowed s0 s0
| reach_step s c :
    reachable allowed s0 s -> allowed c -> reachable allowed s0 (exec c s).

Definition any_command (c : command) : Prop := True.

(** The call is not a removal from the project [pid]. *)
Definition no_removal_from (pid : string) (c : command) : Prop :=
  match c with
  | RemoveTrack _ project_id _ => project_id <> pid
  | _ => True
  end.

(** Within each project the positions are pairwise distinct. *)
Definition distinct_positions (rows : list ProjectTrack.row) : Prop :=
  forall project_id, NoDup (positions_of project_id rows).

(** The positions of the project are 1, 2, ..., n in file order. *)
Definition dense_positions (project_id : string)
    (rows : list ProjectTrack.row) : Prop :=
  positions_of project_id rows
  = map (fun k => Some (Z.of_nat k))
      (seq 1 (length (rows_of project_id rows))).

(** ** Files that [int()] accepts, and references *)



(** Every membership row references a track of [tracks.csv]. *)
Definition memberships_reference_tracks (s : Store) : Prop :=
  forall r, In r (PROJECT_TRACKS_FILE s) ->
  track_exists (ProjectTrack.track_id r) s.

(** [row] is the first row of [rows] with the property [P]. *)
Definition first_with {A} (P : A -> Prop) (rows : list A) (row : A) : Prop :=
  exists before after,
    rows = before ++ row :: after
    /\ P row
    /\ forall r, In r before -> ~ P r.

(** The string [s] has no character [c]. *)
Fixpoint without_char (c : ascii) (s : string) : bool :=
  match s with
  | EmptyString => true
  | String a r => negb (Ascii.eqb a c) && without_char c r
  end.

(** The number of characters [c] in [s]. *)
Fixpoint count_char (c : ascii) (s : string) : nat :=
  match s with
  | EmptyString => 0
  | String a r => (if Ascii.eqb a c then 1 else 0) + count_char c r
  end.

(** The entries of a listing that carry the position [p]. *)
Definition at_position (p : Z) (e : Entry.t) : bool :=
  (Entry.position e =? p)%Z.

(** [row'] is [row] up to the columns that
    [update_new_year_project.py] assigns. *)
Definition same_but_retitled (row row' : Project.row) : Prop :=
  Project.project_id row' = Project.project_id row
  /\ Project.for_field row' = Project.for_field row
  /\ Project.created_on row' = Project.created_on row
  /\ Project.status row' = Project.status row
  /\ Project.deadline row' = Project.deadline row
  /\ Project.collaborators row' = Project.collaborators row.

(* ================================================================== *)
(** * Concrete files *)
(* ================================================================== *)

Module Sample.

Definition catalog : list Track.row :=
  [ {| Track.id := "T1"; Track.track_title := "Good Rockin Tonight A" |};
    {| Track.id := "T2"; Track.track_title := "Swing Time" |} ].

Definition project (project_id modified_on : string) : Project.row :=
  {| Project.project_id := project_id;
     Project.name := "Swinging into the New Year";
     Project.description := "Party music";
     Project.for_field := "TV Commercial";
     Project.keywords := "swing;party";
     Project.created_on := "2025-01-01";
     Project.modified_on := modified_on;
     Project.status := "Active";
     Project.deadline := "2025-12-31";
     Project.collaborators := EmptyString |}.

Definition membership (project_id track_id position : string)
    : ProjectTrack.row :=
  {| ProjectTrack.project_id := project_id;
     ProjectTrack.track_id := track_id;
     ProjectTrack.added_date := "2025-01-02";
     ProjectTrack.position := position;
     ProjectTrack.notes := EmptyString |}.

Definition call (today : string) : CreateArgs :=
  {| arg_today := today;
     arg_name := "Spot";
     arg_description := "A spot";
     arg_for_field := "TV Commercial";
     arg_keywords := EmptyString;
     arg_deadline := "2026-01-31";
     arg_collaborators := EmptyString |}.

(** No project yet. *)
Definition no_project : Store :=
  {| TRACKS_FILE := catalog; PROJECTS_FILE := []; PROJECT_TRACKS_FILE := [] |}.

(** The project P001, without tracks. *)
Definition empty_project : Store :=
  {| TRACKS_FILE := catalog;
     PROJECTS_FILE := [project "P001" "2025-01-01"];
     PROJECT_TRACKS_FILE := [] |}.

(** P001 with T2 at position 3 and the track T9, which is not in the
    catalog, at position 1; P007 without tracks. *)
Definition two_projects : Store :=
  {| TRACKS_FILE := catalog;
     PROJECTS_FILE := [project "P001" "2025-01-01";
                       project "P007" "2025-01-01"];
     PROJECT_TRACKS_FILE := [membership "P001" "T2" "3";
                             membership "P001" "T9" "1"] |}.

(** A table in which the key (P001, T1) is there twice. *)
Definition duplicate_key : Store :=
  {| TRACKS_FILE := catalog;
     PROJECTS_FILE := [project "P001" "2025-01-01"];
     PROJECT_TRACKS_FILE := [membership "P001" "T1" "1";
                             membership "P001" "T2" "2";
                             membership "P001" "T1" "3"] |}.

(** A membership row of P001 while [projects.csv] has no P001. *)
Definition orphan_row : Store :=
  {| TRACKS_FILE := catalog;
     PROJECTS_FILE := [project "P002" "2025-01-01"];
     PROJECT_TRACKS_FILE := [membership "P001" "T1" "1"] |}.

End Sample.

(** More files, for the scripts around [project_ops.py] and for the
    edges of the functions. *)
Module Fixture.

(** P012 lists T2 and T9 at the same position; a row of P001 has a
    negative position. *)
Definition new_year : Store :=
  {| TRACKS_FILE := Sample.catalog;
     PROJECTS_FILE := [Sample.project "P001" "2025-01-01";
                       Sample.project "P012" "2025-01-01"];
     PROJECT_TRACKS_FILE := [Sample.membership "P012" "T2" "2";
                             Sample.membership "P001" "T2" "-3";
                             Sample.membership "P012" "T9" "2"] |}.

(** Tracks of the catalog only, at the positions 1, 2 within each
    project. *)
Definition dense : Store :=
  {| TRACKS_FILE := Sample.catalog;
     PROJECTS_FILE := [Sample.project "P001" "2025-01-01";
                       Sample.project "P012" "2025-01-01"];
     PROJECT_TRACKS_FILE := [Sample.membership "P012" "T2" "1";
                             Sample.membership "P001" "T2" "1";
                             Sample.membership "P012" "T1" "2"] |}.


(** A project under another name. *)
Definition winter (project_id modified_on : string) : Project.row :=
  {| Project.project_id := project_id;
     Project.name := "Winter spot";
     Project.description := "Snow";
     Project.for_field := "Radio";
     Project.keywords := "winter";
     Project.created_on := "2025-01-01";
     Project.modified_on := modified_on;
     Project.status := "Active";
     Project.deadline := "2025-12-31";
     Project.collaborators := "Ann;Bob" |}.

(** The files of [update_new_year_project.py], P012 there twice. *)
Definition data : NewYear.Files :=
  {| NewYear.projects_csv := [winter "P001" "2025-01-01";
                              winter "P012" "2025-01-01";
                              winter "P012" "2025-01-02"];
     NewYear.projects_updated_csv := None;
     NewYear.projects_backup_csv := None |}.

End Fixture.

(* ================================================================== *)
(** * The built-ins on examples *)
(* ================================================================== *)

Example int_plain : Py.int "012" = Some 12%Z.
Proof. reflexivity. Qed.
Example int_spaces_sign : Py.int "  -1_000 " = Some (-1000)%Z.
Proof. reflexivity. Qed.
Example int_bad_underscore : Py.int "1__0" = None.
Proof. reflexivity. Qed.
Example int_empty : Py.int EmptyString = None.
Proof. reflexivity. Qed.
Example int_word : Py.int "abc" = None.
Proof. reflexivity. Qed.
Example str_1000 : Py.str 1000 = "1000".
Proof. reflexivity. Qed.
Example str_0 : Py.str 0 = "0".
Proof. reflexivity. Qed.
Example format_7 : Py.format_03d 7 = "007".
Proof. reflexivity. Qed.
Example format_1000 : Py.format_03d 1000 = "1000".
Proof. reflexivity. Qed.
Example format_neg : Py.format_03d (-1) = "-01".
Proof. reflexivity. Qed.

(* ================================================================== *)
(** * Facts about the built-ins *)
(* ================================================================== *)

Module PyFacts.
Import Py.

Lemma digit_of_ascii_of_digit (d : N) :
  (d < 10)%N -> digit_of (ascii_of_digit d) = Some d.
Proof.
  intros H.
  assert (d = 0 \/ d = 1 \/ d = 2 \/ d = 3 \/ d = 4 \/ d = 5 \/ d = 6
          \/ d = 7 \/ d = 8 \/ d = 9)%N as Hd by lia.
  repeat (destruct Hd as [-> | Hd]; [reflexivity |]).
  subst d. reflexivity.
Qed.

Lemma digit_not_space a d : digit_of a = Some d -> is_space a = false.
Proof.
  unfold digit_of, is_space. cbv zeta.
  destruct ((48 <=? N_of_ascii a) && (N_of_ascii a <=? 57))%N eqn:E;
    [| discriminate].
  intros _. apply andb_true_iff in E. destruct E as [E1 E2].
  apply N.leb_le in E1. apply N.leb_le in E2.
  apply orb_false_iff. split; apply andb_false_iff.
  - right. apply N.leb_gt. lia.
  - right. apply N.leb_gt. lia.
Qed.

Lemma digit_not_char a d (c : ascii) :
  digit_of a = Some d -> digit_of c = None -> Ascii.eqb a c = false.
Proof.
  intros Ha Hc. destruct (Ascii.eqb_spec a c) as [-> |]; [| reflexivity].
  congruence.
Qed.

Lemma all_digits_zeros k s : all_digits s = true -> all_digits (zeros k s) = true.
Proof. intros H. induction k; simpl; auto. Qed.

Lemma all_digits_digits_aux fuel : forall n acc,
  all_digits acc = true -> all_digits (digits_aux fuel n acc) = true.
Proof.
  induction fuel as [| fuel IH]; intros n acc H; simpl; [exact H |].
  assert (all_digits (String (ascii_of_digit (n mod 10)) acc) = true) as H'.
  { simpl. rewrite digit_of_ascii_of_digit; [exact H |].
    apply N.mod_lt. discriminate. }
  destruct (n / 10)%N; [exact H' | apply IH; exact H'].
Qed.

Lemma all_digits_digits n : all_digits (digits n) = true.
Proof. apply all_digits_digits_aux. reflexivity. Qed.

Lemma digits_aux_nonempty fuel : forall n acc,
  digits_aux (S fuel) n acc <> EmptyString.
Proof.
  induction fuel as [| fuel IH]; intros n acc.
  - simpl. destruct (n / 10)%N; discriminate.
  - change (digits_aux (S (S fuel)) n acc)
      with (match (n / 10)%N with
            | N0 => String (ascii_of_digit (n mod 10)) acc
            | q => digits_aux (S fuel) q
                     (String (ascii_of_digit (n mod 10)) acc)
            end).
    destruct (n / 10)%N; [discriminate | apply IH].
Qed.

Lemma digits_nonempty n : digits n <> EmptyString.
Proof. apply digits_aux_nonempty. Qed.

Lemma lstrip_digits s : all_digits s = true -> lstrip s = s.
Proof.
  destruct s as [| a r]; simpl; [reflexivity |].
  destruct (digit_of a) eqn:E; [| discriminate].
  intros _. rewrite (digit_not_space _ _ E). reflexivity.
Qed.

Lemma rstrip_digits s : all_digits s = true -> rstrip s = s.
Proof.
  induction s as [| a r IH]; simpl; [reflexivity |].
  destruct (digit_of a) eqn:E; [| discriminate].
  intros H. rewrite (IH H). rewrite (digit_not_space _ _ E).
  destruct r; reflexivity.
Qed.

Lemma remove_char_digits c s :
  digit_of c = None -> all_digits s = true -> remove_char c s = s.
Proof.
  intros Hc. induction s as [| a r IH]; simpl; [reflexivity |].
  destruct (digit_of a) eqn:E; [| discriminate].
  intros H. rewrite (digit_not_char _ _ _ E Hc), (IH H). reflexivity.
Qed.

(** On a non-empty string of digits, [int] reads the digits. *)
Lemma int_all_digits s :
  all_digits s = true -> s <> EmptyString ->
  int s = option_map Z.of_N (int_digits 0 false s).
Proof.
  intros H Hne. unfold int, strip.
  rewrite (lstrip_digits _ H), (rstrip_digits _ H).
  destruct s as [| a r]; [congruence |].
  simpl in H. destruct (digit_of a) eqn:E; [| discriminate].
  rewrite (digit_not_char a n "+" E eq_refl).
  rewrite (digit_not_char a n "-" E eq_refl). reflexivity.
Qed.

Lemma int_digits_cons acc prev d rest :
  (d < 10)%N ->
  int_digits acc prev (String (ascii_of_digit d) rest)
  = int_digits (10 * acc + d) true rest.
Proof.
  intros H. cbn [int_digits]. rewrite digit_of_ascii_of_digit by exact H.
  reflexivity.
Qed.

(** Reading the digits written for [n] gives [n] back. *)
Lemma int_digits_digits_aux fuel : forall n rest b,
  (n < 2 ^ N.of_nat (S fuel))%N ->
  int_digits 0 b (digits_aux (S fuel) n rest) = int_digits n true rest.
Proof.
  induction fuel as [| fuel IH]; intros n rest b Hn.
  - assert (n / 10 = 0 /\ n mod 10 = n)%N as [Hq Hr].
    { change (2 ^ N.of_nat 1)%N with 2%N in Hn.
      split; [apply N.div_small | apply N.mod_small]; lia. }
    cbn [digits_aux]. rewrite Hq, Hr.
    rewrite int_digits_cons by lia. reflexivity.
  - change (digits_aux (S (S fuel)) n rest)
      with (match (n / 10)%N with
            | N0 => String (ascii_of_digit (n mod 10)) rest
            | q => digits_aux (S fuel) q
                     (String (ascii_of_digit (n mod 10)) rest)
            end).
    assert (n mod 10 < 10)%N as Hlt by (apply N.mod_lt; discriminate).
    pose proof (N.div_mod n 10 ltac:(discriminate)) as Hdm.
    destruct (n / 10)%N as [| q] eqn:Hq.
    + rewrite int_digits_cons by exact Hlt. f_equal. lia.
    + rewrite IH.
      * rewrite int_digits_cons by exact Hlt. f_equal. lia.
      * rewrite <- Hq. apply N.Div0.div_lt_upper_bound.
        rewrite Nat2N.inj_succ, N.pow_succ_r' in Hn.
        assert (0 < 2 ^ N.of_nat (S fuel))%N
          by (apply N.neq_0_lt_0, N.pow_nonzero; discriminate).
        lia.
Qed.

Lemma int_digits_digits n b : int_digits 0 b (digits n) = Some n.
Proof.
  unfold digits. rewrite int_digits_digits_aux; [reflexivity |].
  rewrite Nat2N.inj_succ, N2Nat.id.
  destruct n as [| p]; [reflexivity |].
  apply N.log2_spec. reflexivity.
Qed.

Lemma int_digits_zeros k s : s <> EmptyString ->
  int_digits 0 false (zeros k s) = int_digits 0 false s
  \/ int_digits 0 false (zeros k s) = int_digits 0 true s.
Proof.
  intros _. induction k as [| k IH]; [left; reflexivity |].
  right. simpl. change (10 * 0 + (48 - 48))%N with 0%N.
  clear IH. induction k as [| k IH]; [reflexivity |].
  simpl. exact IH.
Qed.

Lemma int_zeros_digits k n : int (zeros k (digits n)) = Some (Z.of_N n).
Proof.
  rewrite int_all_digits.
  - destruct (int_digits_zeros k (digits n) (digits_nonempty n)) as [-> | ->];
      rewrite int_digits_digits; reflexivity.
  - apply all_digits_zeros, all_digits_digits.
  - destruct k; [apply digits_nonempty | discriminate].
Qed.

(** [int(str(z)) == z] for [z >= 0]. *)
Lemma int_str z : (0 <= z)%Z -> int (str z) = Some z.
Proof.
  intros Hz. destruct z as [| p | p]; try lia.
  - reflexivity.
  - exact (int_zeros_digits 0 (N.pos p)).
Qed.

(** [int(f'P{z:03d}'.replace('P', '')) == z] for [z >= 0]. *)
Lemma int_project_id z :
  (0 <= z)%Z -> int (remove_char "P" ("P" ++ format_03d z)%string) = Some z.
Proof.
  intros Hz.
  assert (format_03d z
          = zeros (3 - String.length (digits (Z.to_N z))) (digits (Z.to_N z)))
    as -> by (destruct z; try lia; reflexivity).
  simpl. rewrite remove_char_digits.
  - rewrite int_zeros_digits. f_equal. lia.
  - reflexivity.
  - apply all_digits_zeros, all_digits_digits.
Qed.




End PyFacts.

(* ================================================================== *)
(** * What each function does to the files *)
(* ================================================================== *)

Section RunEquations.

Variable s : Store.

Lemma run_bind {A B} (c : Script A) (f : A -> Script B) :
  run (bind c f) s =
  match run c s with
  | (inl e, s') => (inl e, s')
  | (inr a, s') => run (f a) s'
  end.
Proof.
  unfold run. cbn. destruct (runState (unEitherT c) s) as [[e | a] s'];
    reflexivity.
Qed.

Lemma run_ret {A} (a : A) : run (ret a) s = (inr a, s).
Proof. reflexivity. Qed.

Lemma run_exit {A} (e : failure) : run (exit e : Script A) s = (inl e, s).
Proof. reflexivity. Qed.

Lemma run_validate_project_exists project_id :
  run (validate_project_exists project_id) s
  = (inr (has_project project_id s), s).
Proof. reflexivity. Qed.

Lemma run_validate_track_exists track_id :
  run (validate_track_exists track_id) s = (inr (has_track track_id s), s).
Proof. reflexivity. Qed.

Lemma run_track_in_project project_id track_id :
  run (track_in_project project_id track_id) s
  = (inr (has_membership project_id track_id s), s).
Proof. reflexivity. Qed.

Lemma run_get_track_title track_id :
  run (get_track_title track_id) s = (inr (title_in s track_id), s).
Proof.
  unfold get_track_title, title_in, run. cbn.
  destruct (find _ (TRACKS_FILE s)); reflexivity.
Qed.

Lemma run_get_project_name project_id :
  exists n, run (get_project_name project_id) s = (inr n, s).
Proof.
  unfold get_project_name, run. cbn.
  destruct (find _ (PROJECTS_FILE s)); eexists; reflexivity.
Qed.

Lemma run_get_next_position project_id :
  run (get_next_position project_id) s =
  match max_pos_loop project_id (PROJECT_TRACKS_FILE s) 0 with
  | Some max_pos => (inr (max_pos + 1)%Z, s)
  | None => (inl ValueError, s)
  end.
Proof.
  unfold get_next_position, run. cbn.
  destruct (max_pos_loop _ _ _); reflexivity.
Qed.

Lemma run_get_next_project_id :
  run get_next_project_id s =
  match max_id_loop (PROJECTS_FILE s) 0 with
  | Some max_id => (inr ("P" ++ Py.format_03d (max_id + 1))%string, s)
  | None => (inl ValueError, s)
  end.
Proof.
  unfold get_next_project_id, run. cbn.
  destruct (max_id_loop _ _); reflexivity.
Qed.

Lemma run_update_project_modified today project_id :
  run (update_project_modified today project_id) s =
  (inr tt,
   {| TRACKS_FILE := TRACKS_FILE s;
      PROJECTS_FILE := touch_first project_id today (PROJECTS_FILE s);
      PROJECT_TRACKS_FILE := PROJECT_TRACKS_FILE s |}).
Proof. reflexivity. Qed.

Lemma run_write_project_tracks rows :
  run (write_project_tracks rows) s =
  (inr tt,
   {| TRACKS_FILE := TRACKS_FILE s;
      PROJECTS_FILE := PROJECTS_FILE s;
      PROJECT_TRACKS_FILE := rows |}).
Proof. reflexivity. Qed.

Lemma run_read_project_tracks :
  run read_project_tracks s = (inr (PROJECT_TRACKS_FILE s), s).
Proof. reflexivity. Qed.

End RunEquations.

Lemma run_add_track today project_id track_id notes s :
  run (add_track today project_id track_id notes) s =
  if negb (has_project project_id s) then (inl ProjectDoesNotExist, s)
  else if negb (has_track track_id s) then (inl TrackDoesNotExist, s)
  else if has_membership project_id track_id s then (inl AlreadyInProject, s)
  else match max_pos_loop project_id (PROJECT_TRACKS_FILE s) 0 with
       | None => (inl ValueError, s)
       | Some max_pos =>
           (inr tt,
            {| TRACKS_FILE := TRACKS_FILE s;
               PROJECTS_FILE :=
                 touch_first project_id today (PROJECTS_FILE s);
               PROJECT_TRACKS_FILE :=
                 PROJECT_TRACKS_FILE s
                 ++ [membership_row today project_id track_id notes
                       (max_pos + 1)] |})
       end.
Proof.
  unfold add_track.
  rewrite run_bind, run_validate_project_exists.
  destruct (has_project project_id s); cbn [negb]; [| apply run_exit].
  rewrite run_bind, run_validate_track_exists.
  destruct (has_track track_id s); cbn [negb]; [| apply run_exit].
  rewrite run_bind, run_track_in_project.
  destruct (has_membership project_id track_id s); [apply run_exit |].
  rewrite run_bind, run_get_next_position.
  destruct (max_pos_loop project_id (PROJECT_TRACKS_FILE s) 0) as [m |];
    [| reflexivity].
  rewrite run_bind, run_read_project_tracks, run_bind,
    run_write_project_tracks, run_bind, run_update_project_modified,
    run_bind, run_get_track_title.
  reflexivity.
Qed.

Lemma run_remove_track today project_id track_id s :
  run (remove_track today project_id track_id) s =
  let rows :=
    filter (fun r => negb (is_membership project_id track_id r))
      (PROJECT_TRACKS_FILE s) in
  if (length rows =? length (PROJECT_TRACKS_FILE s))%nat
  then (inl NotFoundInProject, s)
  else (inr tt,
        {| TRACKS_FILE := TRACKS_FILE s;
           PROJECTS_FILE := touch_first project_id today (PROJECTS_FILE s);
           PROJECT_TRACKS_FILE := rows |}).
Proof.
  unfold remove_track.
  rewrite run_bind, run_read_project_tracks. cbv zeta.
  destruct (length _ =? length _)%nat; [apply run_exit |].
  rewrite run_bind, run_write_project_tracks, run_bind,
    run_update_project_modified, run_bind, run_get_track_title.
  reflexivity.
Qed.

Lemma run_create_project today name description for_field keywords deadline
    collaborators s :
  run (create_project today name description for_field keywords deadline
         collaborators) s =
  match max_id_loop (PROJECTS_FILE s) 0 with
  | None => (inl ValueError, s)
  | Some max_id =>
      let project_id := ("P" ++ Py.format_03d (max_id + 1))%string in
      (inr project_id,
       {| TRACKS_FILE := TRACKS_FILE s;
          PROJECTS_FILE :=
            PROJECTS_FILE s
            ++ [ {| Project.project_id := project_id;
                    Project.name := name;
                    Project.description := description;
                    Project.for_field := for_field;
                    Project.keywords := keywords;
                    Project.created_on := today;
                    Project.modified_on := today;
                    Project.status := "Active";
                    Project.deadline := deadline;
                    Project.collaborators := collaborators |} ];
          PROJECT_TRACKS_FILE := PROJECT_TRACKS_FILE s |})
  end.
Proof.
  unfold create_project.
  rewrite run_bind, run_get_next_project_id.
  destruct (max_id_loop (PROJECTS_FILE s) 0) as [m |]; reflexivity.
Qed.

(* ================================================================== *)
(** * Project identifiers *)
(* ================================================================== *)

Section ProjectIds.

Lemma valid_projects_numbers rows :
  valid_projects rows ->
  forall row, In row rows ->
  exists n, id_number (Project.project_id row) = Some n /\ (0 <= n)%Z.
Proof.
  unfold valid_projects. rewrite forallb_forall. intros H row Hin.
  specialize (H row Hin). unfold valid_project_id in H.
  destruct (id_number (Project.project_id row)) as [n |]; [| discriminate].
  exists n. split; [reflexivity | apply Z.leb_le; exact H].
Qed.

(** The loop returns the larger of its start value and the largest
    suffix. *)
Lemma max_id_loop_spec rows : valid_projects rows -> forall acc,
  exists m, max_id_loop rows acc = Some m
    /\ (acc <= m)%Z
    /\ (forall row n, In row rows ->
          id_number (Project.project_id row) = Some n -> (n <= m)%Z)
    /\ (m = acc
        \/ exists row, In row rows
             /\ id_number (Project.project_id row) = Some m).
Proof.
  induction rows as [| row rest IH]; intros Hv acc.
  - exists acc. simpl. split; [reflexivity |]. split; [lia |].
    split; [intros ? ? [] | left; reflexivity].
  - unfold valid_projects in Hv. simpl in Hv.
    apply andb_true_iff in Hv. destruct Hv as [Hrow Hrest].
    unfold valid_project_id in Hrow. simpl.
    fold (id_number (Project.project_id row)).
    destruct (id_number (Project.project_id row)) as [pid |] eqn:E;
      [| discriminate].
    destruct (IH Hrest (Z.max acc pid)) as (m & Hm & Hle & Hub & Hatt).
    exists m. split; [exact Hm |]. split; [lia |]. split.
    + intros r n [<- | Hin] Hn; [| eauto]. rewrite E in Hn.
      injection Hn as <-. lia.
    + destruct Hatt as [-> | (r & Hin & Hr)].
      * destruct (Z.max_spec acc pid) as [[_ ->] | [_ ->]].
        -- right. exists row. split; [left; reflexivity | exact E].
        -- left. reflexivity.
      * right. exists r. split; [right; exact Hin | exact Hr].
Qed.

Lemma max_id_loop_is_max rows :
  valid_projects rows ->
  exists m, max_id_loop rows 0 = Some m /\ (0 <= m)%Z
    /\ is_max_number (map Project.project_id rows) m.
Proof.
  intros Hv. destruct (max_id_loop_spec rows Hv 0%Z) as (m & Hm & Hle & Hub & Hatt).
  exists m. split; [exact Hm |]. split; [exact Hle |]. split.
  - intros pid n Hin Hn. apply in_map_iff in Hin.
    destruct Hin as (row & <- & Hin). eauto.
  - destruct Hatt as [-> | (row & Hin & Hrow)].
    + destruct rows as [| row rest]; [left; split; reflexivity |].
      right. exists (Project.project_id row). split; [left; reflexivity |].
      destruct (valid_projects_numbers _ Hv row (or_introl eq_refl))
        as (n & Hn & Hn0).
      specialize (Hub row n (or_introl eq_refl) Hn).
      rewrite Hn. f_equal. lia.
    + right. exists (Project.project_id row). split; [| exact Hrow].
      apply in_map. exact Hin.
Qed.

End ProjectIds.

Section CreateSequence.

Lemma valid_projects_app rows row :
  valid_projects rows ->
  valid_project_id (Project.project_id row) = true ->
  valid_projects (rows ++ [row]).
Proof.
  unfold valid_projects. intros H1 H2. rewrite forallb_app, H1. simpl.
  rewrite H2. reflexivity.
Qed.

Lemma id_number_assigned m :
  (0 <= m)%Z -> id_number ("P" ++ Py.format_03d (m + 1))%string = Some (m + 1)%Z.
Proof. intros H. apply PyFacts.int_project_id. lia. Qed.




End CreateSequence.


(* ================================================================== *)
(** * Existence of projects, tracks and memberships *)
(* ================================================================== *)

Section Existence.

Lemma is_membership_iff project_id track_id r :
  is_membership project_id track_id r = true <-> has_key project_id track_id r.
Proof.
  unfold is_membership, has_key.
  rewrite andb_true_iff, !String.eqb_eq. reflexivity.
Qed.

Lemma has_project_iff project_id s :
  has_project project_id s = true <-> project_exists project_id s.
Proof.
  unfold has_project, project_exists. rewrite existsb_exists.
  split; intros (row & Hin & H); exists row; split; auto;
    apply String.eqb_eq; exact H.
Qed.

Lemma has_track_iff track_id s :
  has_track track_id s = true <-> track_exists track_id s.
Proof.
  unfold has_track, track_exists. rewrite existsb_exists.
  split; intros (row & Hin & H); exists row; split; auto;
    apply String.eqb_eq; exact H.
Qed.

Lemma has_membership_iff project_id track_id s :
  has_membership project_id track_id s = true
  <-> is_member project_id track_id s.
Proof.
  unfold has_membership, is_member. rewrite existsb_exists.
  split; intros (r & Hin & H); exists r; split; auto;
    apply is_membership_iff; exact H.
Qed.

Lemma has_project_false project_id s :
  has_project project_id s = false <-> ~ project_exists project_id s.
Proof.
  rewrite <- has_project_iff. destruct (has_project project_id s);
    split; congruence.
Qed.

Lemma has_track_false track_id s :
  has_track track_id s = false <-> ~ track_exists track_id s.
Proof.
  rewrite <- has_track_iff. destruct (has_track track_id s);
    split; congruence.
Qed.

Lemma has_membership_false project_id track_id s :
  has_membership project_id track_id s = false
  <-> ~ is_member project_id track_id s.
Proof.
  rewrite <- has_membership_iff.
  destruct (has_membership project_id track_id s); split; congruence.
Qed.

(** Filtering drops no row exactly when no row has the key. *)
Lemma filter_length_le {A} (f : A -> bool) l :
  (length (filter f l) <= length l)%nat.
Proof. induction l as [| a l IH]; simpl; [lia |]. destruct (f a); simpl; lia. Qed.

Lemma filter_same_length {A} (f : A -> bool) l :
  length (filter f l) = length l <-> forall a, In a l -> f a = true.
Proof.
  induction l as [| a l IH]; simpl.
  - split; [intros _ ? [] | reflexivity].
  - pose proof (filter_length_le f l) as Hle.
    destruct (f a) eqn:E; simpl.
    + split.
      * intros H b [<- | Hb]; [exact E |]. apply IH; [lia | exact Hb].
      * intros H. f_equal. apply IH. intros b Hb. apply H. right. exact Hb.
    + split; [lia |]. intros H. specialize (H a (or_introl eq_refl)).
      congruence.
Qed.

Lemma remove_track_test project_id track_id s :
  (length (filter (fun r => negb (is_membership project_id track_id r))
             (PROJECT_TRACKS_FILE s))
   =? length (PROJECT_TRACKS_FILE s))%nat = true
  <-> ~ is_member project_id track_id s.
Proof.
  rewrite Nat.eqb_eq, filter_same_length. unfold is_member. split.
  - intros H (r & Hin & Hkey). apply is_membership_iff in Hkey.
    specialize (H r Hin). rewrite Hkey in H. discriminate.
  - intros H r Hin. destruct (is_membership project_id track_id r) eqn:E;
      [| reflexivity].
    exfalso. apply H. exists r. split; [exact Hin |].
    apply is_membership_iff. exact E.
Qed.

(** After [touch_first], the row of the project carries the date. *)
Lemma find_touch_first project_id today rows row :
  find (fun r => Project.project_id r =? project_id) rows = Some row ->
  find (fun r => Project.project_id r =? project_id)
       (touch_first project_id today rows)
  = Some (Project.set_modified_on today row).
Proof.
  induction rows as [| r rest IH]; simpl; [discriminate |].
  destruct (Project.project_id r =? project_id) eqn:E.
  - intros [= <-]. simpl. rewrite E. reflexivity.
  - intros H. simpl. rewrite E. apply IH. exact H.
Qed.

Lemma project_row_exists project_id s :
  project_exists project_id s ->
  exists row, project_row project_id s = Some row
              /\ Project.project_id row = project_id.
Proof.
  intros H. apply has_project_iff in H. unfold has_project in H.
  unfold project_row. destruct (find _ (PROJECTS_FILE s)) as [row |] eqn:E.
  - exists row. split; [reflexivity |]. apply find_some in E.
    apply String.eqb_eq. exact (proj2 E).
  - apply existsb_exists in H. destruct H as (row & Hin & Hrow).
    pose proof (find_none _ _ E row Hin) as Hn. simpl in Hn. congruence.
Qed.

Lemma existsb_touch_first pid project_id today rows :
  existsb (fun row => Project.project_id row =? pid)
          (touch_first project_id today rows)
  = existsb (fun row => Project.project_id row =? pid) rows.
Proof.
  induction rows as [| r rest IH]; simpl; [reflexivity |].
  destruct (Project.project_id r =? project_id); simpl; [reflexivity |].
  rewrite IH. reflexivity.
Qed.

End Existence.

(* ================================================================== *)
(** * add_track: the checks *)
(* ================================================================== *)

(** C2. [add_track] checks in this order that the project exists, that
    the track exists and that the pair is not yet in
    [project_tracks.csv]; it ends with the error of the first check that
    fails, and a call that fails, for whatever reason, leaves the three
    files as they were: no row is appended. *)
Theorem add_track_preconditions (today project_id track_id notes : string)
    (s : Store) :
  let c := add_track today project_id track_id notes in
  (outcome c s = inl ProjectDoesNotExist <-> ~ project_exists project_id s)
  /\ (outcome c s = inl TrackDoesNotExist
      <-> project_exists project_id s /\ ~ track_exists track_id s)
  /\ (outcome c s = inl AlreadyInProject
      <-> project_exists project_id s /\ track_exists track_id s
          /\ is_member project_id track_id s)
  /\ (forall e, outcome c s = inl e -> files_after c s = s).
Proof.
  cbv zeta. unfold outcome, files_after. rewrite run_add_track.
  rewrite <- has_project_iff, <- has_track_iff, <- has_membership_iff.
  destruct (has_project project_id s), (has_track track_id s),
    (has_membership project_id track_id s); cbn [negb fst snd];
    try (destruct (max_pos_loop project_id (PROJECT_TRACKS_FILE s) 0);
         cbn [fst snd]);
    repeat split; try congruence; try tauto; try discriminate;
    try (intros H; decompose [and] H; congruence);
    try (intros [H1 H2]; congruence).
Qed.

(* ================================================================== *)
(** * remove_track *)
(* ================================================================== *)

Lemma touch_first_modified today project_id s s' :
  project_exists project_id s ->
  PROJECTS_FILE s' = touch_first project_id today (PROJECTS_FILE s) ->
  modified_today today project_id s'.
Proof.
  intros Hex Hs'. destruct (project_row_exists _ _ Hex) as (row & Hrow & Hid).
  exists (Project.set_modified_on today row). unfold project_row.
  rewrite Hs'. split; [apply find_touch_first; exact Hrow |].
  split; [exact Hid | reflexivity].
Qed.

(** C4. [remove_track] ends with "not found in project" exactly when no
    row has the key [(project_id, track_id)], which it finds out by
    comparing the number of rows before and after the filter; it then
    writes nothing: the three files are unchanged.  When a row has the
    key the call succeeds, [project_tracks.csv] is rewritten without the
    rows of that key and the row of the project, if there is one, gets
    [modified_on = today]. *)
Theorem remove_track_not_found_iff (today project_id track_id : string)
    (s : Store) :
  let c := remove_track today project_id track_id in
  (outcome c s = inl NotFoundInProject <-> ~ is_member project_id track_id s)
  /\ (~ is_member project_id track_id s -> files_after c s = s)
  /\ (is_member project_id track_id s ->
      outcome c s = inr tt
      /\ PROJECT_TRACKS_FILE (files_after c s)
         = filter (fun r => negb (is_membership project_id track_id r))
             (PROJECT_TRACKS_FILE s)
      /\ (forall r, In r (PROJECT_TRACKS_FILE (files_after c s)) ->
            ~ has_key project_id track_id r)
      /\ TRACKS_FILE (files_after c s) = TRACKS_FILE s
      /\ (project_exists project_id s ->
          modified_today today project_id (files_after c s))).
Proof.
  cbv zeta. unfold outcome, files_after. rewrite run_remove_track. cbv zeta.
  pose proof (remove_track_test project_id track_id s) as Htest.
  destruct (length _ =? length _)%nat; cbn [fst snd].
  - assert (~ is_member project_id track_id s) as Hno
        by (apply Htest; reflexivity).
    split; [tauto |]. split; [reflexivity |]. intros H. contradiction.
  - assert (~ ~ is_member project_id track_id s) as Hyes
        by (intros H; apply Htest in H; discriminate).
    split; [split; [discriminate | intros H; contradiction] |].
    split; [intros H; contradiction |].
    intros _. split; [reflexivity |]. split; [reflexivity |].
    split; [| split; [reflexivity |]].
    + intros r Hin Hkey. apply filter_In in Hin. destruct Hin as [_ Hf].
      apply is_membership_iff in Hkey. rewrite Hkey in Hf. discriminate.
    + intros Hex. apply (touch_first_modified today project_id s);
        [exact Hex | reflexivity].
Qed.

(** C10, as amended. [remove_track] makes no check on the project: it
    never ends with "project does not exist".  For a [project_id] that
    is not in [projects.csv], it ends with "not found in project", the
    files unchanged, whenever no row has the key, which is always so when
    every membership row references a project of [projects.csv]. *)
Theorem remove_track_absent_project (today project_id track_id : string)
    (s : Store) :
  let c := remove_track today project_id track_id in
  outcome c s <> inl ProjectDoesNotExist
  /\ (~ project_exists project_id s ->
      (~ is_member project_id track_id s ->
       run c s = (inl NotFoundInProject, s))
      /\ (memberships_reference_projects s ->
          run c s = (inl NotFoundInProject, s))).
Proof.
  cbv zeta. unfold outcome. rewrite run_remove_track. cbv zeta.
  pose proof (remove_track_test project_id track_id s) as Htest.
  destruct (length _ =? length _)%nat; cbn [fst].
  - split; [discriminate |]. intros _. split; reflexivity.
  - split; [discriminate |]. intros Habs.
    split.
    + intros Hno. apply Htest in Hno. discriminate.
    + intros Href. exfalso.
      assert (~ ~ is_member project_id track_id s) as Hyes
          by (intros H; apply Htest in H; discriminate).
      apply Hyes. intros (r & Hin & Hp & _). apply Habs.
      rewrite <- Hp. apply Href. exact Hin.
Qed.

Lemma filter_all_true {A} (f : A -> bool) l :
  (forall a, In a l -> f a = true) -> filter f l = l.
Proof.
  induction l as [| a l IH]; simpl; intros H; [reflexivity |].
  rewrite (H a (or_introl eq_refl)). f_equal. apply IH.
  intros b Hb. apply H. right. exact Hb.
Qed.

Lemma other_key_kept project_id track_id r0 l :
  has_key project_id track_id r0 ->
  ~ In (key r0) (map key l) ->
  forall r, In r l -> negb (is_membership project_id track_id r) = true.
Proof.
  intros [Hp Ht] Hnot r Hin.
  destruct (is_membership project_id track_id r) eqn:E; [| reflexivity].
  exfalso. apply Hnot. apply is_membership_iff in E. destruct E as [Ep Et].
  replace (key r0) with (key r) by (unfold key; congruence).
  apply in_map. exact Hin.
Qed.

(** C5, as amended. A successful [remove_track] rewrites
    [project_tracks.csv] without the rows of the key
    [(project_id, track_id)], all of them, and with every other row as
    it was, [position] included, in the order they had.  In a table
    where the key is unique, exactly one row goes. *)
Theorem remove_track_keeps_other_rows (today project_id track_id : string)
    (s : Store) :
  let c := remove_track today project_id track_id in
  outcome c s = inr tt ->
  PROJECT_TRACKS_FILE (files_after c s)
  = filter (fun r => negb (is_membership project_id track_id r))
      (PROJECT_TRACKS_FILE s)
  /\ (unique_memberships (PROJECT_TRACKS_FILE s) ->
      exists before r after,
        PROJECT_TRACKS_FILE s = before ++ r :: after
        /\ has_key project_id track_id r
        /\ PROJECT_TRACKS_FILE (files_after c s) = before ++ after).
Proof.
  cbv zeta. unfold outcome, files_after. rewrite run_remove_track. cbv zeta.
  pose proof (remove_track_test project_id track_id s) as Htest.
  destruct (length _ =? length _)%nat eqn:E; cbn [fst snd];
    [discriminate |].
  intros _. split; [reflexivity |]. intros Huniq.
  assert (is_member project_id track_id s) as (r & Hin & Hkey).
  { apply has_membership_iff.
    destruct (has_membership project_id track_id s) eqn:Hm; [reflexivity |].
    apply has_membership_false, Htest in Hm. discriminate. }
  destruct (in_split _ _ Hin) as (before & after & Hsplit).
  exists before, r, after. split; [exact Hsplit |]. split; [exact Hkey |].
  cbn [PROJECT_TRACKS_FILE]. rewrite Hsplit.
  unfold unique_memberships in Huniq. rewrite Hsplit, map_app in Huniq.
  cbn [map] in Huniq. pose proof (NoDup_remove_2 _ _ _ Huniq) as Hnot.
  rewrite filter_app. cbn [filter].
  apply is_membership_iff in Hkey as Hb. rewrite Hb. cbn [negb].
  apply is_membership_iff in Hb.
  rewrite !filter_all_true; [reflexivity | |];
    apply (other_key_kept _ _ r); auto;
    intros H; apply Hnot, in_or_app; auto.
Qed.

(* ================================================================== *)
(** * update_project_modified: what it leaves alone *)
(* ================================================================== *)

Lemma same_but_modified_on_refl row : same_but_modified_on row row.
Proof. repeat split. Qed.

Lemma touch_first_length project_id today rows :
  length (touch_first project_id today rows) = length rows.
Proof.
  induction rows as [| r rest IH]; simpl; [reflexivity |].
  destruct (Project.project_id r =? project_id); simpl; congruence.
Qed.

Lemma touch_first_rows project_id today rows : forall i row,
  nth_error rows i = Some row ->
  exists row',
    nth_error (touch_first project_id today rows) i = Some row'
    /\ same_but_modified_on row row'
    /\ (first_of_project project_id rows i -> Project.modified_on row' = today)
    /\ (~ first_of_project project_id rows i -> row' = row).
Proof.
  induction rows as [| r rest IH]; intros i row Hi.
  - destruct i; discriminate.
  - simpl. destruct (String.eqb_spec (Project.project_id r) project_id)
      as [E | E].
    + destruct i as [| k]; simpl in Hi.
      * injection Hi as <-. exists (Project.set_modified_on today r).
        split; [reflexivity |]. split; [repeat split |].
        split; [reflexivity |]. intros Hnot. exfalso. apply Hnot.
        split; [exists r; auto | intros j ? Hj; lia].
      * exists row. split; [exact Hi |].
        split; [apply same_but_modified_on_refl |].
        split; [| reflexivity].
        intros [_ Hfirst]. exfalso.
        apply (Hfirst 0%nat r); [lia | reflexivity | exact E].
    + destruct i as [| k]; simpl in Hi.
      * injection Hi as <-. exists r. split; [reflexivity |].
        split; [apply same_but_modified_on_refl |].
        split; [| reflexivity].
        intros [(row & Hrow & Hid) _]. simpl in Hrow.
        injection Hrow as <-. contradiction.
      * destruct (IH k row Hi) as (row' & Hrow' & Hsame & Hfirst & Hother).
        exists row'. split; [exact Hrow' |]. split; [exact Hsame |].
        assert (first_of_project project_id (r :: rest) (S k)
                <-> first_of_project project_id rest k) as Hiff.
        { unfold first_of_project. split; intros [Hex Hbefore].
          - split; [exact Hex |]. intros j x Hj Hx.
            apply (Hbefore (S j) x); [lia | exact Hx].
          - split; [exact Hex |]. intros [| j] x Hj Hx.
            + simpl in Hx. injection Hx as <-. exact E.
            + apply (Hbefore j x); [lia | exact Hx]. }
        rewrite Hiff. auto.
Qed.

(** C9. A successful [add_track] or [remove_track] rewrites
    [projects.csv] with the same number of rows in the same order; the
    first row of the project gets [modified_on = today] and keeps its
    other columns, every other row, later rows of the same [project_id]
    included, is unchanged. *)
Theorem projects_table_frame (today project_id track_id notes : string)
    (c : Script unit) (s : Store) :
  c = add_track today project_id track_id notes
  \/ c = remove_track today project_id track_id ->
  outcome c s = inr tt ->
  length (PROJECTS_FILE (files_after c s)) = length (PROJECTS_FILE s)
  /\ forall i row,
       nth_error (PROJECTS_FILE s) i = Some row ->
       exists row',
         nth_error (PROJECTS_FILE (files_after c s)) i = Some row'
         /\ same_but_modified_on row row'
         /\ (first_of_project project_id (PROJECTS_FILE s) i ->
             Project.modified_on row' = today)
         /\ (~ first_of_project project_id (PROJECTS_FILE s) i ->
             row' = row).
Proof.
  intros Hc Hok.
  assert (PROJECTS_FILE (files_after c s)
          = touch_first project_id today (PROJECTS_FILE s)) as ->.
  { unfold outcome in Hok. unfold files_after.
    destruct Hc as [-> | ->].
    - rewrite run_add_track in *.
      destruct (has_project project_id s); [| discriminate].
      destruct (has_track track_id s); [| discriminate].
      destruct (has_membership project_id track_id s); [discriminate |].
      cbn [negb] in *.
      destruct (max_pos_loop project_id (PROJECT_TRACKS_FILE s) 0);
        [reflexivity | discriminate].
    - rewrite run_remove_track in *. cbv zeta in *.
      destruct (length _ =? length _)%nat; [discriminate | reflexivity]. }
  split; [apply touch_first_length | apply touch_first_rows].
Qed.

(* ================================================================== *)
(** * create_project *)
(* ================================================================== *)


(* ================================================================== *)
(** * Positions *)
(* ================================================================== *)

Section Positions.

Variable project_id : string.

Lemma rows_of_app rows1 rows2 :
  rows_of project_id (rows1 ++ rows2)
  = rows_of project_id rows1 ++ rows_of project_id rows2.
Proof. apply filter_app. Qed.



(** What the loop of [get_next_position] returns, when it returns. *)
Lemma max_pos_loop_some rows : forall acc m,
  max_pos_loop project_id rows acc = Some m ->
  (acc <= m)%Z
  /\ (forall r, In r (rows_of project_id rows) ->
        exists q, position_number r = Some q /\ (q <= m)%Z)
  /\ (m = acc
      \/ exists r, In r (rows_of project_id rows)
                   /\ position_number r = Some m).
Proof.
  induction rows as [| row rest IH]; intros acc m; simpl.
  - intros [= <-]. split; [lia |]. split; [intros ? [] | left; reflexivity].
  - destruct (ProjectTrack.project_id row =? project_id) eqn:E.
    + fold (position_number row).
      destruct (position_number row) as [p |] eqn:Ep; [| discriminate].
      intros H. destruct (IH _ _ H) as (Hle & Hub & Hatt).
      split; [lia |]. split.
      * intros r [<- | Hin]; [| auto]. exists p. split; [exact Ep | lia].
      * destruct Hatt as [-> | (r & Hin & Hr)].
        -- destruct (Z.max_spec acc p) as [[_ ->] | [_ ->]].
           ++ right. exists row. split; [left; reflexivity | exact Ep].
           ++ left. reflexivity.
        -- right. exists r. split; [right; exact Hin | exact Hr].
    + apply IH.
Qed.


End Positions.


(* ================================================================== *)
(** * list_tracks *)
(* ================================================================== *)

Section ListTracks.

Lemma title_in_resolved s track_id :
  resolved_title s track_id (title_in s track_id).
Proof.
  unfold resolved_title, title_in.
  destruct (find _ (TRACKS_FILE s)) as [t |] eqn:E.
  - left. exists t. split; [reflexivity |]. split; [| reflexivity].
    apply find_some in E. apply String.eqb_eq. exact (proj2 E).
  - right. split; [| reflexivity]. intros (t & Hin & Hid).
    pose proof (find_none _ _ E t Hin) as Hn. simpl in Hn.
    apply String.eqb_eq in Hid. congruence.
Qed.

Lemma run_collect_tracks s project_id rows :
  run (collect_tracks project_id rows) s =
  (match entries_of s project_id rows with
   | Some tracks => inr tracks
   | None => inl ValueError
   end, s).
Proof.
  induction rows as [| row rest IH]; [reflexivity |].
  cbn [collect_tracks entries_of].
  destruct (ProjectTrack.project_id row =? project_id); [| exact IH].
  rewrite run_bind, run_get_track_title, run_bind.
  unfold int_or_raise, position_number.
  destruct (Py.int (ProjectTrack.position row)) as [p |];
    [| reflexivity].
  rewrite run_ret, run_bind, IH.
  destruct (entries_of s project_id rest); reflexivity.
Qed.

Lemma run_list_tracks s project_id :
  run (list_tracks project_id) s =
  (if negb (has_project project_id s) then inl ProjectDoesNotExist
   else match entries_of s project_id (PROJECT_TRACKS_FILE s) with
        | Some tracks => inr (sort_by_position tracks)
        | None => inl ValueError
        end, s).
Proof.
  unfold list_tracks. rewrite run_bind, run_validate_project_exists.
  destruct (has_project project_id s); cbn [negb]; [| reflexivity].
  rewrite run_bind. destruct (run_get_project_name s project_id) as (n & ->).
  rewrite run_bind, run_read_project_tracks, run_bind, run_collect_tracks.
  destruct (entries_of s project_id (PROJECT_TRACKS_FILE s)); reflexivity.
Qed.

Lemma entries_of_lists s project_id rows : forall tracks,
  entries_of s project_id rows = Some tracks ->
  Forall2 (lists_row s) (rows_of project_id rows) tracks.
Proof.
  induction rows as [| row rest IH]; intros tracks; simpl.
  - intros [= <-]. constructor.
  - destruct (ProjectTrack.project_id row =? project_id); [| apply IH].
    destruct (position_number row) as [p |] eqn:Ep; [| discriminate].
    destruct (entries_of s project_id rest) as [l |]; [| discriminate].
    intros [= <-]. constructor; [| apply IH; reflexivity].
    unfold lists_row, entry_of. simpl.
    repeat split; auto. apply title_in_resolved.
Qed.







End ListTracks.


(* ================================================================== *)
(** * add_track: the row appended *)
(* ================================================================== *)


(* ================================================================== *)
(** * The invariants of the membership table *)
(* ================================================================== *)

Section Invariants.

Lemma exec_create a s :
  PROJECT_TRACKS_FILE (exec (CreateProject a) s) = PROJECT_TRACKS_FILE s.
Proof.
  unfold exec, files_after, create_project_with.
  rewrite run_create_project.
  destruct (max_id_loop (PROJECTS_FILE s) 0); reflexivity.
Qed.

Lemma exec_add today project_id track_id notes s :
  PROJECT_TRACKS_FILE (exec (AddTrack today project_id track_id notes) s)
  = PROJECT_TRACKS_FILE s
  \/ exists m,
       ~ is_member project_id track_id s
       /\ max_pos_loop project_id (PROJECT_TRACKS_FILE s) 0 = Some m
       /\ PROJECT_TRACKS_FILE
            (exec (AddTrack today project_id track_id notes) s)
          = PROJECT_TRACKS_FILE s
            ++ [membership_row today project_id track_id notes (m + 1)].
Proof.
  unfold exec, files_after. rewrite run_add_track.
  destruct (has_project project_id s); [| left; reflexivity].
  destruct (has_track track_id s); [| left; reflexivity].
  destruct (has_membership project_id track_id s) eqn:Hm;
    [left; reflexivity |].
  cbn [negb].
  destruct (max_pos_loop project_id (PROJECT_TRACKS_FILE s) 0) as [m |];
    [| left; reflexivity].
  right. exists m. split; [apply has_membership_false; exact Hm |].
  split; reflexivity.
Qed.

Lemma exec_remove today project_id track_id s :
  PROJECT_TRACKS_FILE (exec (RemoveTrack today project_id track_id) s)
  = PROJECT_TRACKS_FILE s
  \/ PROJECT_TRACKS_FILE (exec (RemoveTrack today project_id track_id) s)
     = filter (fun r => negb (is_membership project_id track_id r))
         (PROJECT_TRACKS_FILE s).
Proof.
  unfold exec, files_after. rewrite run_remove_track. cbv zeta.
  destruct (length _ =? length _)%nat; [left | right]; reflexivity.
Qed.

Lemma NoDup_snoc {A} (l : list A) a : NoDup l -> ~ In a l -> NoDup (l ++ [a]).
Proof.
  intros Hl Ha. apply (Permutation_NoDup (l := a :: l)).
  - apply Permutation_cons_append.
  - constructor; assumption.
Qed.

Lemma NoDup_map_filter {A B} (g : A -> B) (f : A -> bool) l :
  NoDup (map g l) -> NoDup (map g (filter f l)).
Proof.
  induction l as [| a l IH]; simpl; intros H; [constructor |].
  inversion H as [| ? ? Hnot Hrest]; subst.
  destruct (f a); [| apply IH; exact Hrest].
  simpl. constructor; [| apply IH; exact Hrest].
  intros Hin. apply Hnot. apply in_map_iff in Hin.
  destruct Hin as (b & Hb & Hin). apply filter_In in Hin.
  rewrite <- Hb. apply in_map. exact (proj1 Hin).
Qed.

Lemma filter_swap {A} (f g : A -> bool) l :
  filter f (filter g l) = filter g (filter f l).
Proof.
  induction l as [| a l IH]; simpl; [reflexivity |].
  destruct (g a) eqn:Eg, (f a) eqn:Ef; simpl; rewrite ?Eg, ?Ef, IH;
    reflexivity.
Qed.

Lemma positions_of_snoc project_id rows row :
  positions_of project_id (rows ++ [row])
  = positions_of project_id rows
    ++ (if ProjectTrack.project_id row =? project_id
        then [position_number row] else []).
Proof.
  unfold positions_of. rewrite rows_of_app, map_app. f_equal.
  unfold rows_of. simpl.
  destruct (ProjectTrack.project_id row =? project_id); reflexivity.
Qed.

Lemma rows_of_snoc_length project_id rows row :
  length (rows_of project_id (rows ++ [row]))
  = (length (rows_of project_id rows)
     + (if (ProjectTrack.project_id row =? project_id)%string
        then 1 else 0))%nat.
Proof.
  rewrite rows_of_app, length_app. f_equal. unfold rows_of. simpl.
  destruct (ProjectTrack.project_id row =? project_id); reflexivity.
Qed.

Lemma added_position today project_id track_id notes rows m :
  max_pos_loop project_id rows 0 = Some m ->
  position_number (membership_row today project_id track_id notes (m + 1))
  = Some (m + 1)%Z.
Proof.
  intros H. apply max_pos_loop_some in H. destruct H as (H0 & _).
  apply PyFacts.int_str. lia.
Qed.

Lemma unique_memberships_add today project_id track_id notes p s :
  unique_memberships (PROJECT_TRACKS_FILE s) ->
  ~ is_member project_id track_id s ->
  unique_memberships
    (PROJECT_TRACKS_FILE s ++ [membership_row today project_id track_id notes p]).
Proof.
  unfold unique_memberships. intros Hu Hm. rewrite map_app. simpl.
  apply NoDup_snoc; [exact Hu |]. intros Hin. apply Hm.
  apply in_map_iff in Hin. destruct Hin as (r & Hkey & Hin).
  exists r. split; [exact Hin |]. unfold key in Hkey. simpl in Hkey.
  injection Hkey as Hp Ht. split; assumption.
Qed.

Lemma distinct_positions_add today project_id track_id notes rows m :
  distinct_positions rows ->
  max_pos_loop project_id rows 0 = Some m ->
  distinct_positions
    (rows ++ [membership_row today project_id track_id notes (m + 1)]).
Proof.
  intros Hd Hloop pid. rewrite positions_of_snoc.
  cbn [membership_row ProjectTrack.project_id].
  destruct (String.eqb_spec project_id pid) as [<- |];
    [| rewrite app_nil_r; apply Hd].
  apply NoDup_snoc; [apply Hd |].
  fold (membership_row today project_id track_id notes (m + 1)).
  rewrite (added_position _ _ _ _ _ _ Hloop).
  intros Hin. unfold positions_of in Hin. apply in_map_iff in Hin.
  destruct Hin as (r & Hr & Hin).
  destruct (max_pos_loop_some _ _ _ _ Hloop) as (_ & Hub & _).
  destruct (Hub r Hin) as (q & Hq & Hle). rewrite Hq in Hr.
  injection Hr as ->. lia.
Qed.

Lemma distinct_positions_filter (f : ProjectTrack.row -> bool) rows :
  distinct_positions rows -> distinct_positions (filter f rows).
Proof.
  intros Hd pid. unfold positions_of, rows_of. rewrite filter_swap.
  apply NoDup_map_filter. apply Hd.
Qed.

(** On a dense project the loop of [get_next_position] returns the
    number of its rows. *)
Lemma dense_max_pos project_id rows m :
  dense_positions project_id rows ->
  max_pos_loop project_id rows 0 = Some m ->
  m = Z.of_nat (length (rows_of project_id rows)).
Proof.
  intros Hd Hloop. unfold dense_positions in Hd.
  destruct (max_pos_loop_some _ _ _ _ Hloop) as (H0 & Hub & Hatt).
  set (n := length (rows_of project_id rows)) in *.
  assert (forall q, In (Some q) (positions_of project_id rows) ->
                    (1 <= q <= Z.of_nat n)%Z) as Hrange.
  { intros q Hq. rewrite Hd in Hq. apply in_map_iff in Hq.
    destruct Hq as (k & [= <-] & Hk). apply in_seq in Hk. lia. }
  assert (forall q, In (Some q) (positions_of project_id rows) -> (q <= m)%Z)
    as Hle.
  { intros q Hq. unfold positions_of in Hq. apply in_map_iff in Hq.
    destruct Hq as (r & Hr & Hin). destruct (Hub r Hin) as (q' & Hq' & Hle).
    rewrite Hq' in Hr. injection Hr as ->. exact Hle. }
  assert (Z.of_nat n <= m)%Z as Hlow.
  { destruct n as [| k] eqn:En; [lia |]. apply Hle. rewrite Hd.
    apply in_map_iff. exists (S k). split; [reflexivity |].
    apply in_seq. lia. }
  destruct Hatt as [-> | (r & Hin & Hr)]; [lia |].
  assert (In (Some m) (positions_of project_id rows)) as Hm.
  { unfold positions_of. rewrite <- Hr. apply in_map. exact Hin. }
  apply Hrange in Hm. lia.
Qed.

Lemma dense_positions_add pid today project_id track_id notes rows m :
  dense_positions pid rows ->
  max_pos_loop project_id rows 0 = Some m ->
  dense_positions pid
    (rows ++ [membership_row today project_id track_id notes (m + 1)]).
Proof.
  intros Hd Hloop. unfold dense_positions.
  rewrite positions_of_snoc, rows_of_snoc_length.
  cbn [membership_row ProjectTrack.project_id].
  destruct (String.eqb_spec project_id pid) as [<- |].
  - fold (membership_row today project_id track_id notes (m + 1)).
    rewrite (added_position _ _ _ _ _ _ Hloop).
    rewrite (dense_max_pos _ _ _ Hd Hloop).
    rewrite Nat.add_1_r, seq_S, map_app, <- Hd. simpl.
    do 3 f_equal. lia.
  - rewrite app_nil_r, Nat.add_0_r. apply Hd.
Qed.

(** Removing from another project leaves the rows of the project. *)
Lemma rows_of_remove_other pid project_id track_id rows :
  project_id <> pid ->
  rows_of pid (filter (fun r => negb (is_membership project_id track_id r))
                 rows)
  = rows_of pid rows.
Proof.
  intros Hne. unfold rows_of. rewrite filter_swap.
  apply filter_all_true. intros r Hin. apply filter_In in Hin.
  destruct Hin as [_ Hr]. apply String.eqb_eq in Hr.
  unfold is_membership.
  destruct (String.eqb_spec (ProjectTrack.project_id r) project_id);
    [congruence | reflexivity].
Qed.

Lemma exec_preserves_unique_distinct c s :
  unique_memberships (PROJECT_TRACKS_FILE s)
  /\ distinct_positions (PROJECT_TRACKS_FILE s) ->
  unique_memberships (PROJECT_TRACKS_FILE (exec c s))
  /\ distinct_positions (PROJECT_TRACKS_FILE (exec c s)).
Proof.
  intros [Hu Hd]. destruct c as [a | today pid tid notes | today pid tid].
  - rewrite exec_create. split; assumption.
  - destruct (exec_add today pid tid notes s)
      as [-> | (m & Hno & Hloop & ->)]; [split; assumption |].
    split; [apply unique_memberships_add; assumption |].
    apply distinct_positions_add; assumption.
  - destruct (exec_remove today pid tid s) as [-> | ->];
      [split; assumption |].
    split; [apply NoDup_map_filter; exact Hu |].
    apply distinct_positions_filter; exact Hd.
Qed.

Lemma exec_preserves_dense project_id c s :
  no_removal_from project_id c ->
  dense_positions project_id (PROJECT_TRACKS_FILE s) ->
  dense_positions project_id (PROJECT_TRACKS_FILE (exec c s)).
Proof.
  intros Hc Hd. destruct c as [a | today pid tid notes | today pid tid].
  - rewrite exec_create. exact Hd.
  - destruct (exec_add today pid tid notes s)
      as [-> | (m & Hno & Hloop & ->)]; [exact Hd |].
    apply dense_positions_add; assumption.
  - destruct (exec_remove today pid tid s) as [-> | ->]; [exact Hd |].
    unfold dense_positions, positions_of.
    rewrite (rows_of_remove_other _ _ _ _ Hc). exact Hd.
Qed.

End Invariants.

(** C7. From files where each pair [(project_id, track_id)] is in
    [project_tracks.csv] at most once and the positions within each
    project are pairwise distinct, every sequence of [create_project],
    [add_track] and [remove_track] calls, failed calls included, leads
    to files with the same two properties.  For a project whose
    positions are 1, 2, ..., n in file order (so for a project without
    rows), calls that remove nothing from it lead to files where its
    positions are 1, 2, ..., n again, n the number of its rows. *)
Theorem membership_invariants (s0 s : Store) :
  (unique_memberships (PROJECT_TRACKS_FILE s0) ->
   distinct_positions (PROJECT_TRACKS_FILE s0) ->
   reachable any_command s0 s ->
   unique_memberships (PROJECT_TRACKS_FILE s)
   /\ distinct_positions (PROJECT_TRACKS_FILE s))
  /\ (forall project_id,
      dense_positions project_id (PROJECT_TRACKS_FILE s0) ->
      reachable (no_removal_from project_id) s0 s ->
      dense_positions project_id (PROJECT_TRACKS_FILE s)
      /\ NoDup (positions_of project_id (PROJECT_TRACKS_FILE s))).
Proof.
  split.
  - intros Hu Hd Hreach. induction Hreach as [| s c Hreach IH Hc];
      [split; assumption |].
    apply exec_preserves_unique_distinct. exact IH.
  - intros pid Hd Hreach.
    assert (dense_positions pid (PROJECT_TRACKS_FILE s)) as Hdense.
    { induction Hreach as [| s c Hreach IH Hc]; [exact Hd |].
      apply exec_preserves_dense; assumption. }
    split; [exact Hdense |]. rewrite Hdense.
    clear. generalize 1%nat as a.
    induction (length (rows_of pid (PROJECT_TRACKS_FILE s))) as [| n IH];
      intros a; simpl; constructor; [| apply IH].
    intros Hin. apply in_map_iff in Hin.
    destruct Hin as (k & [= Hk] & Hin). apply in_seq in Hin. lia.
Qed.

(** The scenario of a project P001 without tracks and a track T1 of the
    catalog: add, list, add again, remove, list. *)
Example scenario_add :
  run (add_track "2025-02-01" "P001" "T1" EmptyString) Sample.empty_project
  = (inr tt,
     {| TRACKS_FILE := Sample.catalog;
        PROJECTS_FILE := [Sample.project "P001" "2025-02-01"];
        PROJECT_TRACKS_FILE :=
          [ {| ProjectTrack.project_id := "P001";
               ProjectTrack.track_id := "T1";
               ProjectTrack.added_date := "2025-02-01";
               ProjectTrack.position := "1";
               ProjectTrack.notes := EmptyString |} ] |}).
Proof. reflexivity. Qed.

Example scenario_list :
  outcome (list_tracks "P001")
    (files_after (add_track "2025-02-01" "P001" "T1" EmptyString) Sample.empty_project)
  = inr [ {| Entry.position := 1;
             Entry.track_id := "T1";
             Entry.title := "Good Rockin Tonight A";
             Entry.added_date := "2025-02-01";
             Entry.notes := EmptyString |} ].
Proof. reflexivity. Qed.

Example scenario_add_twice :
  let s1 :=
    files_after (add_track "2025-02-01" "P001" "T1" EmptyString) Sample.empty_project in
  run (add_track "2025-02-01" "P001" "T1" EmptyString) s1 = (inl AlreadyInProject, s1).
Proof. reflexivity. Qed.

Example scenario_remove_list :
  let s1 :=
    files_after (add_track "2025-02-01" "P001" "T1" EmptyString) Sample.empty_project in
  outcome (remove_track "2025-02-02" "P001" "T1") s1 = inr tt
  /\ outcome (list_tracks "P001")
       (files_after (remove_track "2025-02-02" "P001" "T1") s1) = inr [].
Proof. split; reflexivity. Qed.

Example list_sorted_unknown :
  outcome (list_tracks "P001") Sample.two_projects
  = inr [ {| Entry.position := 1;
             Entry.track_id := "T9";
             Entry.title := "Unknown";
             Entry.added_date := "2025-01-02";
             Entry.notes := EmptyString |};
          {| Entry.position := 3;
             Entry.track_id := "T2";
             Entry.title := "Swing Time";
             Entry.added_date := "2025-01-02";
             Entry.notes := EmptyString |} ].
Proof. reflexivity. Qed.

Example create_after_P007 :
  outcome (create_projects [Sample.call "2025-03-01"; Sample.call "2025-03-02"])
    Sample.two_projects
  = inr ["P008"; "P009"].
Proof. reflexivity. Qed.

Example create_on_bad_id :
  run (create_project_with (Sample.call "2025-03-01"))
    {| TRACKS_FILE := [];
       PROJECTS_FILE := [Sample.project "PX1" "2025-01-01"];
       PROJECT_TRACKS_FILE := [] |}
  = (inl ValueError,
     {| TRACKS_FILE := [];
        PROJECTS_FILE := [Sample.project "PX1" "2025-01-01"];
        PROJECT_TRACKS_FILE := [] |}).
Proof. reflexivity. Qed.

(* ================================================================== *)
(** * Where the stated properties stop *)
(* ================================================================== *)

(** C5, as stated, fails on a table with a repeated key: the call
    succeeds and two rows go, so the table left is not the table before
    with one row taken out. *)
Lemma remove_track_duplicate_key_removes_two :
  outcome (remove_track "2025-02-02" "P001" "T1") Sample.duplicate_key
  = inr tt
  /\ length (PROJECT_TRACKS_FILE Sample.duplicate_key) = 3%nat
  /\ length (PROJECT_TRACKS_FILE
               (files_after (remove_track "2025-02-02" "P001" "T1")
                  Sample.duplicate_key)) = 1%nat
  /\ ~ exists before r after,
         PROJECT_TRACKS_FILE Sample.duplicate_key = before ++ r :: after
         /\ PROJECT_TRACKS_FILE
              (files_after (remove_track "2025-02-02" "P001" "T1")
                 Sample.duplicate_key) = before ++ after.
Proof.
  split; [reflexivity |]. split; [reflexivity |]. split; [reflexivity |].
  intros (before & r & after & H1 & H2).
  apply (f_equal (@length _)) in H1. apply (f_equal (@length _)) in H2.
  rewrite length_app in H1, H2. cbn in H1, H2. lia.
Qed.

(** C10, as stated, fails when a membership row references a project
    that [projects.csv] does not have: the call succeeds and the row
    goes. *)
Lemma remove_track_orphan_row_succeeds :
  ~ project_exists "P001" Sample.orphan_row
  /\ run (remove_track "2025-02-02" "P001" "T1") Sample.orphan_row
     = (inr tt,
        {| TRACKS_FILE := Sample.catalog;
           PROJECTS_FILE := [Sample.project "P002" "2025-01-01"];
           PROJECT_TRACKS_FILE := [] |})
  /\ run (remove_track "2025-02-02" "P001" "T1") Sample.orphan_row
     <> (inl NotFoundInProject, Sample.orphan_row).
Proof.
  split; [| split; [reflexivity | discriminate]].
  apply has_project_false. reflexivity.
Qed.

(* ================================================================== *)
(** * The theorems at concrete files *)
(* ================================================================== *)


Lemma add_track_preconditions_at_two_projects :
  outcome (add_track "2025-02-01" "P001" "T2" EmptyString) Sample.two_projects
  = inl AlreadyInProject
  /\ files_after (add_track "2025-02-01" "P001" "T2" EmptyString) Sample.two_projects
     = Sample.two_projects.
Proof.
  pose proof (add_track_preconditions "2025-02-01" "P001" "T2" EmptyString
                Sample.two_projects) as (_ & _ & _ & Hkeep).
  split; [reflexivity |]. apply (Hkeep AlreadyInProject). reflexivity.
Defined.

Lemma sample_project_exists :
  project_exists "P001" Sample.two_projects.
Proof. apply has_project_iff. reflexivity. Defined.


Lemma sample_not_member : ~ is_member "P001" "T1" Sample.two_projects.
Proof. apply has_membership_false. reflexivity. Defined.

Lemma sample_member : is_member "P001" "T2" Sample.two_projects.
Proof. apply has_membership_iff. reflexivity. Defined.

Lemma sample_unique_memberships :
  unique_memberships (PROJECT_TRACKS_FILE Sample.two_projects).
Proof.
  unfold unique_memberships. vm_compute.
  constructor; [| constructor; [| constructor]].
  - intros [H | []]. discriminate.
  - intros [].
Defined.

Lemma sample_distinct_positions :
  distinct_positions (PROJECT_TRACKS_FILE Sample.two_projects).
Proof.
  intros pid. unfold positions_of, rows_of.
  cbn [Sample.two_projects PROJECT_TRACKS_FILE filter Sample.membership
       ProjectTrack.project_id].
  destruct ("P001" =? pid)%string; vm_compute; [| constructor].
  constructor; [| constructor; [| constructor]].
  - intros [H | []]. discriminate.
  - intros [].
Defined.


Lemma remove_track_not_found_iff_at_two_projects :
  outcome (remove_track "2025-02-02" "P001" "T2") Sample.two_projects
  = inr tt
  /\ modified_today "2025-02-02" "P001"
       (files_after (remove_track "2025-02-02" "P001" "T2")
          Sample.two_projects)
  /\ files_after (remove_track "2025-02-02" "P001" "T1") Sample.two_projects
     = Sample.two_projects.
Proof.
  pose proof (remove_track_not_found_iff "2025-02-02" "P001" "T2"
                Sample.two_projects) as (_ & _ & Hok).
  destruct (Hok sample_member) as (Hrun & _ & _ & _ & Hmod).
  pose proof (remove_track_not_found_iff "2025-02-02" "P001" "T1"
                Sample.two_projects) as (_ & Hkeep & _).
  split; [exact Hrun |]. split; [exact (Hmod sample_project_exists) |].
  exact (Hkeep sample_not_member).
Defined.

Lemma remove_track_keeps_other_rows_at_two_projects :
  outcome (remove_track "2025-02-02" "P001" "T2") Sample.two_projects
  = inr tt
  /\ exists before r after,
       PROJECT_TRACKS_FILE Sample.two_projects = before ++ r :: after
       /\ has_key "P001" "T2" r
       /\ PROJECT_TRACKS_FILE
            (files_after (remove_track "2025-02-02" "P001" "T2")
               Sample.two_projects) = before ++ after.
Proof.
  split; [reflexivity |].
  exact (proj2 (remove_track_keeps_other_rows "2025-02-02" "P001" "T2"
                  Sample.two_projects eq_refl) sample_unique_memberships).
Defined.


Lemma membership_invariants_at_two_projects :
  let s := exec (RemoveTrack "2025-02-03" "P001" "T2")
             (exec (AddTrack "2025-02-01" "P001" "T1" EmptyString)
                Sample.two_projects) in
  let s' := exec (AddTrack "2025-02-01" "P001" "T1" EmptyString)
              (exec (CreateProject (Sample.call "2025-02-01"))
                 Sample.no_project) in
  (unique_memberships (PROJECT_TRACKS_FILE s)
   /\ distinct_positions (PROJECT_TRACKS_FILE s))
  /\ dense_positions "P001" (PROJECT_TRACKS_FILE s').
Proof.
  cbv zeta. split.
  - refine (proj1 (membership_invariants Sample.two_projects _)
              sample_unique_memberships sample_distinct_positions _).
    apply reach_step; [apply reach_step; [apply reach_start |] |];
      exact I.
  - refine (proj1 (proj2 (membership_invariants Sample.no_project _)
                     "P001" _ _)).
    + reflexivity.
    + apply reach_step; [apply reach_step; [apply reach_start |] |];
        exact I.
Defined.


Lemma projects_table_frame_at_two_projects :
  length (PROJECTS_FILE
            (files_after (add_track "2025-02-01" "P007" "T1" EmptyString)
               Sample.two_projects)) = 2%nat
  /\ nth_error (PROJECTS_FILE
                  (files_after (add_track "2025-02-01" "P007" "T1" EmptyString)
                     Sample.two_projects)) 0
     = Some (Sample.project "P001" "2025-01-01").
Proof.
  destruct (projects_table_frame "2025-02-01" "P007" "T1" EmptyString
              (add_track "2025-02-01" "P007" "T1" EmptyString) Sample.two_projects
              (or_introl eq_refl) eq_refl) as (Hlen & Hrows).
  split; [exact Hlen |].
  destruct (Hrows 0%nat (Sample.project "P001" "2025-01-01") eq_refl)
    as (row' & Hrow' & _ & _ & Hkeep).
  rewrite Hrow'. f_equal. apply Hkeep.
  intros [(row & Hrow & Hid) _]. cbn in Hrow. injection Hrow as <-.
  discriminate.
Defined.

Lemma remove_track_absent_project_at_two_projects :
  run (remove_track "2025-02-02" "P404" "T1") Sample.two_projects
  = (inl NotFoundInProject, Sample.two_projects).
Proof.
  pose proof (remove_track_absent_project "2025-02-02" "P404" "T1"
                Sample.two_projects) as (_ & Habsent).
  refine (proj2 (Habsent _) _).
  - apply has_project_false. reflexivity.
  - intros r [<- | [<- | []]]; apply has_project_iff; reflexivity.
Defined.

(* ================================================================== *)
(** * Failures of [int()] *)
(* ================================================================== *)

Section ValueErrors.





End ValueErrors.



(** X3. When [add_track] returns, the row it appended carries a position
    that is at least 1 and larger than the position of every row the
    project had, whatever the sign of those positions. *)
Theorem add_track_position_above_all (today project_id track_id notes : string)
    (s : Store) :
  let c := add_track today project_id track_id notes in
  outcome c s = inr tt ->
  exists p,
    PROJECT_TRACKS_FILE (files_after c s)
    = PROJECT_TRACKS_FILE s
      ++ [membership_row today project_id track_id notes p]
    /\ (1 <= p)%Z
    /\ position_number (membership_row today project_id track_id notes p)
       = Some p
    /\ forall r, In r (rows_of project_id (PROJECT_TRACKS_FILE s)) ->
         exists q, position_number r = Some q /\ (q < p)%Z.
Proof.
  cbv zeta. unfold outcome, files_after. rewrite run_add_track.
  destruct (has_project project_id s); [| discriminate].
  destruct (has_track track_id s); [| discriminate].
  destruct (has_membership project_id track_id s); [discriminate |].
  cbn [negb].
  destruct (max_pos_loop project_id (PROJECT_TRACKS_FILE s) 0) as [m |]
    eqn:Hloop; [| discriminate].
  intros _. destruct (max_pos_loop_some _ _ _ _ Hloop) as (Hm0 & Hub & _).
  exists (m + 1)%Z. cbn [snd PROJECT_TRACKS_FILE].
  split; [reflexivity |]. split; [lia |].
  split; [apply (added_position _ _ _ _ _ _ Hloop) |].
  intros r Hin. destruct (Hub r Hin) as (q & Hq & Hle).
  exists q. split; [exact Hq | lia].
Qed.


(* ================================================================== *)
(** * The order of a listing *)
(* ================================================================== *)

Section ListingOrder.

Lemma filter_insert_by_position p x l :
  filter (at_position p) (insert_by_position x l)
  = filter (at_position p) (x :: l).
Proof.
  induction l as [| y l IH]; [reflexivity |].
  cbn [insert_by_position].
  destruct (Z.leb_spec (Entry.position x) (Entry.position y)) as [Hle | Hgt];
    [reflexivity |].
  cbn [filter] in *. rewrite IH. unfold at_position.
  destruct (Z.eqb_spec (Entry.position x) p) as [Hx | Hx];
    [| reflexivity].
  destruct (Z.eqb_spec (Entry.position y) p) as [Hy | Hy];
    [lia | reflexivity].
Qed.

Lemma filter_sort_by_position p l :
  filter (at_position p) (sort_by_position l) = filter (at_position p) l.
Proof.
  induction l as [| x l IH]; [reflexivity |].
  cbn [sort_by_position]. rewrite filter_insert_by_position.
  cbn [filter]. rewrite IH. reflexivity.
Qed.

Lemma list_tracks_returns project_id s listed :
  outcome (list_tracks project_id) s = inr listed ->
  has_project project_id s = true
  /\ exists tracks,
       entries_of s project_id (PROJECT_TRACKS_FILE s) = Some tracks
       /\ listed = sort_by_position tracks.
Proof.
  unfold outcome. rewrite run_list_tracks. cbn [fst].
  destruct (has_project project_id s); cbn [negb]; [| discriminate].
  destruct (entries_of s project_id (PROJECT_TRACKS_FILE s)) as [tracks |];
    [| discriminate].
  intros [= <-]. split; [reflexivity |]. exists tracks. auto.
Qed.




End ListingOrder.

(** X5. The sort of [list_tracks] is stable: the entries of the listing
    that carry the same position are in the order of their rows in
    [project_tracks.csv]. *)
Theorem list_tracks_stable (project_id : string) (s : Store)
    (listed : list Entry.t) :
  outcome (list_tracks project_id) s = inr listed ->
  exists tracks,
    Forall2 (lists_row s)
      (rows_of project_id (PROJECT_TRACKS_FILE s)) tracks
    /\ forall p,
         filter (at_position p) listed = filter (at_position p) tracks.
Proof.
  intros H. destruct (list_tracks_returns _ _ _ H) as (_ & tracks & Ht & ->).
  exists tracks. split; [apply entries_of_lists; exact Ht |].
  intros p. apply filter_sort_by_position.
Qed.


(* ================================================================== *)
(** * Calls in sequence *)
(* ================================================================== *)

Section Sequences.

Lemma project_ids_touch_first project_id today rows :
  map Project.project_id (touch_first project_id today rows)
  = map Project.project_id rows.
Proof.
  induction rows as [| r rest IH]; [reflexivity |].
  cbn [touch_first].
  destruct (Project.project_id r =? project_id); cbn [map];
    [reflexivity | rewrite IH; reflexivity].
Qed.

(** What a call of [add_track] that returns has found and written. *)
Lemma add_track_success today project_id track_id notes s :
  outcome (add_track today project_id track_id notes) s = inr tt ->
  has_project project_id s = true
  /\ has_track track_id s = true
  /\ has_membership project_id track_id s = false
  /\ exists m,
       max_pos_loop project_id (PROJECT_TRACKS_FILE s) 0 = Some m
       /\ files_after (add_track today project_id track_id notes) s
          = {| TRACKS_FILE := TRACKS_FILE s;
               PROJECTS_FILE :=
                 touch_first project_id today (PROJECTS_FILE s);
               PROJECT_TRACKS_FILE :=
                 PROJECT_TRACKS_FILE s
                 ++ [membership_row today project_id track_id notes
                       (m + 1)] |}.
Proof.
  unfold outcome, files_after. rewrite run_add_track.
  destruct (has_project project_id s); [| discriminate].
  destruct (has_track track_id s); [| discriminate].
  destruct (has_membership project_id track_id s); [discriminate |].
  cbn [negb].
  destruct (max_pos_loop project_id (PROJECT_TRACKS_FILE s) 0) as [m |];
    [| discriminate].
  intros _. repeat split. exists m. split; reflexivity.
Qed.

(** What a call of [remove_track] that returns has found and written. *)
Lemma remove_track_success today project_id track_id s :
  outcome (remove_track today project_id track_id) s = inr tt ->
  has_membership project_id track_id s = true
  /\ files_after (remove_track today project_id track_id) s
     = {| TRACKS_FILE := TRACKS_FILE s;
          PROJECTS_FILE := touch_first project_id today (PROJECTS_FILE s);
          PROJECT_TRACKS_FILE :=
            filter (fun r => negb (is_membership project_id track_id r))
              (PROJECT_TRACKS_FILE s) |}.
Proof.
  unfold outcome, files_after. rewrite run_remove_track. cbv zeta.
  pose proof (remove_track_test project_id track_id s) as Htest.
  destruct (length _ =? length _)%nat; [discriminate |].
  intros _. split; [| reflexivity].
  destruct (has_membership project_id track_id s) eqn:Hm; [reflexivity |].
  apply has_membership_false, Htest in Hm. discriminate.
Qed.

Lemma is_membership_row today project_id track_id notes p :
  is_membership project_id track_id
    (membership_row today project_id track_id notes p) = true.
Proof.
  unfold is_membership, membership_row. cbn.
  rewrite !String.eqb_refl. reflexivity.
Qed.

Lemma filter_without_key project_id track_id rows :
  existsb (is_membership project_id track_id) rows = false ->
  filter (fun r => negb (is_membership project_id track_id r)) rows = rows.
Proof.
  intros H. apply filter_all_true. intros r Hin.
  destruct (is_membership project_id track_id r) eqn:E; [| reflexivity].
  assert (existsb (is_membership project_id track_id) rows = true)
    by (apply existsb_exists; exists r; auto).
  congruence.
Qed.

Lemma existsb_filter_key project_id track_id rows :
  existsb (is_membership project_id track_id)
    (filter (fun r => negb (is_membership project_id track_id r)) rows)
  = false.
Proof.
  induction rows as [| r rows IH]; [reflexivity |].
  cbn [filter]. destruct (is_membership project_id track_id r) eqn:E;
    cbn [negb existsb]; [exact IH |].
  rewrite E, IH. reflexivity.
Qed.

End Sequences.

(** X7. After an [add_track] that returned, [remove_track] of the same
    pair returns and [project_tracks.csv] is again, row for row, the
    table before the addition; the catalog and the identifiers of the
    projects are unchanged, and [get_next_position] gives the project
    the same position as before: the position of a removed last track is
    issued again. *)
Theorem add_then_remove_restores (today today' project_id track_id notes
    : string) (s : Store) :
  outcome (add_track today project_id track_id notes) s = inr tt ->
  let s1 := files_after (add_track today project_id track_id notes) s in
  let s2 := files_after (remove_track today' project_id track_id) s1 in
  outcome (remove_track today' project_id track_id) s1 = inr tt
  /\ PROJECT_TRACKS_FILE s2 = PROJECT_TRACKS_FILE s
  /\ TRACKS_FILE s2 = TRACKS_FILE s
  /\ project_ids s2 = project_ids s
  /\ outcome (get_next_position project_id) s2
     = outcome (get_next_position project_id) s.
Proof.
  intros Hadd. cbv zeta.
  destruct (add_track_success _ _ _ _ _ Hadd) as (_ & _ & Hm & m & _ & ->).
  assert (filter (fun r => negb (is_membership project_id track_id r))
            (PROJECT_TRACKS_FILE s
             ++ [membership_row today project_id track_id notes (m + 1)])
          = PROJECT_TRACKS_FILE s) as Hfilter.
  { rewrite filter_app, (filter_without_key _ _ _ Hm). cbn [filter].
    rewrite is_membership_row. cbn [negb]. apply app_nil_r. }
  unfold outcome, files_after. rewrite run_remove_track. cbv zeta.
  cbn [PROJECT_TRACKS_FILE TRACKS_FILE PROJECTS_FILE].
  rewrite Hfilter, length_app. cbn [length].
  destruct (Nat.eqb_spec (length (PROJECT_TRACKS_FILE s))
              (length (PROJECT_TRACKS_FILE s) + 1)) as [Hlen | _]; [lia |].
  cbn [fst snd PROJECT_TRACKS_FILE TRACKS_FILE].
  split; [reflexivity |]. split; [reflexivity |]. split; [reflexivity |].
  split.
  - unfold project_ids. cbn [PROJECTS_FILE].
    rewrite !project_ids_touch_first. reflexivity.
  - rewrite !run_get_next_position. cbn [PROJECT_TRACKS_FILE].
    destruct (max_pos_loop project_id (PROJECT_TRACKS_FILE s) 0);
      reflexivity.
Qed.

(** X8. After an [add_track] that returned, a second [add_track] of the
    same pair, with any notes and on any day, ends with "already in
    project" and writes nothing. *)
Theorem add_track_twice_conflict (today today' project_id track_id notes
    notes' : string) (s : Store) :
  outcome (add_track today project_id track_id notes) s = inr tt ->
  let s1 := files_after (add_track today project_id track_id notes) s in
  run (add_track today' project_id track_id notes') s1
  = (inl AlreadyInProject, s1).
Proof.
  intros Hadd. cbv zeta.
  destruct (add_track_success _ _ _ _ _ Hadd) as (Hp & Ht & _ & m & _ & ->).
  rewrite run_add_track. unfold has_project, has_track, has_membership.
  cbn [PROJECTS_FILE TRACKS_FILE PROJECT_TRACKS_FILE].
  rewrite existsb_touch_first. fold (has_project project_id s).
  fold (has_track track_id s). rewrite Hp, Ht. cbn [negb].
  rewrite existsb_app. cbn [existsb]. rewrite is_membership_row.
  rewrite orb_true_r. reflexivity.
Qed.

(** X9. After a [remove_track] that returned, no row has the key any
    more: a second [remove_track] of the same pair ends with "not found
    in project" and writes nothing, also when the table held the key
    more than once. *)
Theorem remove_track_twice_not_found (today today' project_id track_id
    : string) (s : Store) :
  outcome (remove_track today project_id track_id) s = inr tt ->
  let s1 := files_after (remove_track today project_id track_id) s in
  ~ is_member project_id track_id s1
  /\ run (remove_track today' project_id track_id) s1
     = (inl NotFoundInProject, s1).
Proof.
  intros Hrem. cbv zeta.
  destruct (remove_track_success _ _ _ _ Hrem) as (_ & ->).
  match goal with |- ~ is_member _ _ ?x /\ _ => set (s1 := x) end.
  assert (has_membership project_id track_id s1 = false) as Hno
    by apply existsb_filter_key.
  split; [apply has_membership_false; exact Hno |].
  rewrite run_remove_track. cbv zeta.
  apply has_membership_false, remove_track_test in Hno. rewrite Hno.
  reflexivity.
Qed.

(* ================================================================== *)
(** * What no history of calls does *)
(* ================================================================== *)

Section Histories.

Lemma add_track_failure today project_id track_id notes s e :
  outcome (add_track today project_id track_id notes) s = inl e ->
  files_after (add_track today project_id track_id notes) s = s.
Proof.
  unfold outcome, files_after. rewrite run_add_track.
  destruct (has_project project_id s); [| reflexivity].
  destruct (has_track track_id s); [| reflexivity].
  destruct (has_membership project_id track_id s); [reflexivity |].
  cbn [negb].
  destruct (max_pos_loop project_id (PROJECT_TRACKS_FILE s) 0);
    [discriminate | reflexivity].
Qed.

Lemma remove_track_failure today project_id track_id s e :
  outcome (remove_track today project_id track_id) s = inl e ->
  files_after (remove_track today project_id track_id) s = s.
Proof.
  unfold outcome, files_after. rewrite run_remove_track. cbv zeta.
  destruct (length _ =? length _)%nat; [reflexivity | discriminate].
Qed.

(** The three ways a call leaves [project_tracks.csv] and the
    identifiers of [projects.csv]. *)
Lemma exec_cases c s :
  TRACKS_FILE (exec c s) = TRACKS_FILE s
  /\ (exists new, project_ids (exec c s) = project_ids s ++ new)
  /\ (PROJECT_TRACKS_FILE (exec c s) = PROJECT_TRACKS_FILE s
      \/ (exists today project_id track_id notes m,
            has_project project_id s = true
            /\ has_track track_id s = true
            /\ max_pos_loop project_id (PROJECT_TRACKS_FILE s) 0 = Some m
            /\ PROJECT_TRACKS_FILE (exec c s)
               = PROJECT_TRACKS_FILE s
                 ++ [membership_row today project_id track_id notes (m + 1)])
      \/ (exists f, PROJECT_TRACKS_FILE (exec c s)
                    = filter f (PROJECT_TRACKS_FILE s))).
Proof.
  destruct c as [a | today pid tid notes | today pid tid]; cbn [exec].
  - unfold files_after, create_project_with. rewrite run_create_project.
    destruct (max_id_loop (PROJECTS_FILE s) 0) as [m |]; cbv zeta; cbn [snd].
    + split; [reflexivity |]. split; [| left; reflexivity].
      eexists. unfold project_ids. cbn [PROJECTS_FILE].
      rewrite map_app. reflexivity.
    + split; [reflexivity |]. split; [| left; reflexivity].
      exists []. rewrite app_nil_r. reflexivity.
  - destruct (outcome (add_track today pid tid notes) s) as [e | []] eqn:Ho.
    + rewrite (add_track_failure _ _ _ _ _ _ Ho).
      split; [reflexivity |]. split; [| left; reflexivity].
      exists []. rewrite app_nil_r. reflexivity.
    + destruct (add_track_success _ _ _ _ _ Ho)
        as (Hp & Ht & _ & m & Hloop & ->).
      cbn [TRACKS_FILE PROJECT_TRACKS_FILE]. split; [reflexivity |]. split.
      * exists []. unfold project_ids. cbn [PROJECTS_FILE].
        rewrite project_ids_touch_first, app_nil_r. reflexivity.
      * right. left. exists today, pid, tid, notes, m. auto.
  - destruct (outcome (remove_track today pid tid) s) as [e | []] eqn:Ho.
    + rewrite (remove_track_failure _ _ _ _ _ Ho).
      split; [reflexivity |]. split; [| left; reflexivity].
      exists []. rewrite app_nil_r. reflexivity.
    + destruct (remove_track_success _ _ _ _ Ho) as (_ & ->).
      cbn [TRACKS_FILE PROJECT_TRACKS_FILE]. split; [reflexivity |]. split.
      * exists []. unfold project_ids. cbn [PROJECTS_FILE].
        rewrite project_ids_touch_first, app_nil_r. reflexivity.
      * right. right. eexists. reflexivity.
Qed.

Lemma project_exists_ids project_id s :
  project_exists project_id s <-> In project_id (project_ids s).
Proof.
  unfold project_exists, project_ids. rewrite in_map_iff.
  split; intros (row & H1 & H2); exists row; auto.
Qed.

Lemma track_exists_catalog track_id s s' :
  TRACKS_FILE s' = TRACKS_FILE s ->
  track_exists track_id s -> track_exists track_id s'.
Proof. unfold track_exists. intros ->. auto. Qed.

Lemma project_exists_exec project_id c s :
  project_exists project_id s -> project_exists project_id (exec c s).
Proof.
  rewrite !project_exists_ids.
  destruct (exec_cases c s) as (_ & (new & ->) & _).
  intros H. apply in_or_app. left. exact H.
Qed.

Lemma valid_projects_touch_first project_id today rows :
  valid_projects rows -> valid_projects (touch_first project_id today rows).
Proof.
  unfold valid_projects. induction rows as [| r rest IH]; [auto |].
  cbn [touch_first forallb]. intros H. apply andb_true_iff in H.
  destruct H as [Hr Hrest].
  destruct (Project.project_id r =? project_id); cbn [forallb].
  - change (Project.project_id (Project.set_modified_on today r))
      with (Project.project_id r). rewrite Hr, Hrest. reflexivity.
  - rewrite Hr, (IH Hrest). reflexivity.
Qed.

Lemma exec_keeps_references c s :
  (memberships_reference_projects s ->
   memberships_reference_projects (exec c s))
  /\ (memberships_reference_tracks s ->
      memberships_reference_tracks (exec c s)).
Proof.
  destruct (exec_cases c s) as (Htracks & _ & Hrows).
  split; intros Href r Hin.
  - assert (project_exists (ProjectTrack.project_id r) s);
      [| apply project_exists_exec; assumption].
    destruct Hrows as [Hsame | [Hadd | (f & Hf)]].
    + apply Href. rewrite <- Hsame. exact Hin.
    + destruct Hadd as (today & pid & tid & notes & m & Hp & _ & _ & Hrows).
      rewrite Hrows in Hin. apply in_app_or in Hin.
      destruct Hin as [Hin | [<- | []]]; [apply Href; exact Hin |].
      apply has_project_iff. exact Hp.
    + rewrite Hf in Hin. apply filter_In in Hin. apply Href, Hin.
  - apply (track_exists_catalog _ s); [exact Htracks |].
    destruct Hrows as [Hsame | [Hadd | (f & Hf)]].
    + apply Href. rewrite <- Hsame. exact Hin.
    + destruct Hadd as (today & pid & tid & notes & m & _ & Ht & _ & Hrows).
      rewrite Hrows in Hin. apply in_app_or in Hin.
      destruct Hin as [Hin | [<- | []]]; [apply Href; exact Hin |].
      apply has_track_iff. exact Ht.
    + rewrite Hf in Hin. apply filter_In in Hin. apply Href, Hin.
Qed.

Lemma exec_keeps_unique_ids c s :
  valid_projects (PROJECTS_FILE s) /\ NoDup (project_ids s) ->
  valid_projects (PROJECTS_FILE (exec c s)) /\ NoDup (project_ids (exec c s)).
Proof.
  intros [Hv Hnd].
  destruct c as [a | today pid tid notes | today pid tid]; cbn [exec].
  - unfold files_after, create_project_with. rewrite run_create_project.
    destruct (max_id_loop_is_max _ Hv) as (m & Hm & Hm0 & Hub & _).
    rewrite Hm. cbv zeta. cbn [snd PROJECTS_FILE].
    pose proof (id_number_assigned m Hm0) as Hnum. split.
    + apply valid_projects_app; [exact Hv |].
      cbn [Project.project_id]. unfold valid_project_id. rewrite Hnum.
      apply Z.leb_le. lia.
    + unfold project_ids. cbn [PROJECTS_FILE]. rewrite map_app.
      cbn [map Project.project_id]. apply NoDup_snoc; [exact Hnd |].
      intros Hin. specialize (Hub _ _ Hin Hnum). lia.
  - destruct (outcome (add_track today pid tid notes) s) as [e | []] eqn:Ho.
    + rewrite (add_track_failure _ _ _ _ _ _ Ho). auto.
    + destruct (add_track_success _ _ _ _ _ Ho) as (_ & _ & _ & m & _ & ->).
      unfold project_ids. cbn [PROJECTS_FILE].
      rewrite project_ids_touch_first.
      split; [apply valid_projects_touch_first |]; assumption.
  - destruct (outcome (remove_track today pid tid) s) as [e | []] eqn:Ho.
    + rewrite (remove_track_failure _ _ _ _ _ Ho). auto.
    + destruct (remove_track_success _ _ _ _ Ho) as (_ & ->).
      unfold project_ids. cbn [PROJECTS_FILE].
      rewrite project_ids_touch_first.
      split; [apply valid_projects_touch_first |]; assumption.
Qed.



Lemma touch_first_absent project_id today rows :
  existsb (fun row => Project.project_id row =? project_id) rows = false ->
  touch_first project_id today rows = rows.
Proof.
  induction rows as [| r rest IH]; [reflexivity |].
  cbn [existsb touch_first].
  destruct (Project.project_id r =? project_id); [discriminate |].
  cbn [orb]. intros H. rewrite (IH H). reflexivity.
Qed.

Lemma touch_first_twice project_id today rows :
  touch_first project_id today (touch_first project_id today rows)
  = touch_first project_id today rows.
Proof.
  induction rows as [| r rest IH]; [reflexivity |].
  cbn [touch_first].
  destruct (Project.project_id r =? project_id) eqn:E; cbn [touch_first].
  - change (Project.project_id (Project.set_modified_on today r))
      with (Project.project_id r). rewrite E. reflexivity.
  - rewrite E, IH. reflexivity.
Qed.

End Histories.

(** X10. No history of [create_project], [add_track] and [remove_track]
    calls writes [tracks.csv], and none deletes, renames or reorders a
    project: the identifiers of [projects.csv] are those of the start,
    in their order, followed by the identifiers created since. *)
Theorem history_keeps_catalog_and_projects (s0 s : Store) :
  reachable any_command s0 s ->
  TRACKS_FILE s = TRACKS_FILE s0
  /\ exists new, project_ids s = project_ids s0 ++ new.
Proof.
  induction 1 as [| s c Hreach [IHt (new & IHp)] _].
  - split; [reflexivity |]. exists []. rewrite app_nil_r. reflexivity.
  - destruct (exec_cases c s) as (Ht & (new' & Hp) & _).
    split; [congruence |]. exists (new ++ new').
    rewrite Hp, IHp, app_assoc. reflexivity.
Qed.

(** X11. Referential integrity is kept by every history of calls: when
    every membership row references a project of [projects.csv] at the
    start it does so afterwards, and the same for the tracks of
    [tracks.csv]. *)
Theorem history_keeps_references (s0 s : Store) :
  reachable any_command s0 s ->
  (memberships_reference_projects s0 -> memberships_reference_projects s)
  /\ (memberships_reference_tracks s0 -> memberships_reference_tracks s).
Proof.
  induction 1 as [| s c Hreach [IHp IHt] _]; [auto |].
  destruct (exec_keeps_references c s) as [Hp Ht]. auto.
Qed.

(** X12. From a valid projects table without repeated identifier, every
    history of calls, additions and removals of tracks between the
    creations included, leads to a valid projects table without
    repeated identifier. *)
Theorem history_keeps_unique_project_ids (s0 s : Store) :
  valid_projects (PROJECTS_FILE s0) ->
  NoDup (project_ids s0) ->
  reachable any_command s0 s ->
  valid_projects (PROJECTS_FILE s) /\ NoDup (project_ids s).
Proof.
  intros Hv Hnd Hreach. induction Hreach as [| s c Hreach IH _]; [auto |].
  apply exec_keeps_unique_ids. exact IH.
Qed.


(** X14. [update_project_modified] never fails.  For a project that is
    not in [projects.csv] it rewrites the file as it was, without error;
    and two calls for the same project on the same day leave what one
    call leaves. *)
Theorem update_project_modified_missing_and_twice (today project_id : string)
    (s : Store) :
  let c := update_project_modified today project_id in
  outcome c s = inr tt
  /\ (~ project_exists project_id s -> files_after c s = s)
  /\ files_after c (files_after c s) = files_after c s.
Proof.
  cbv zeta. unfold outcome, files_after.
  rewrite !run_update_project_modified. cbn [fst snd].
  split; [reflexivity |]. split.
  - intros Hno. apply has_project_false in Hno.
    rewrite (touch_first_absent _ _ _ Hno). destruct s. reflexivity.
  - cbn [TRACKS_FILE PROJECTS_FILE PROJECT_TRACKS_FILE].
    rewrite touch_first_twice. reflexivity.
Qed.

(* ================================================================== *)
(** * The look-ups *)
(* ================================================================== *)

Lemma find_first_with {A} (f : A -> bool) (l : list A) (x : A) :
  find f l = Some x ->
  first_with (fun a => f a = true) l x.
Proof.
  induction l as [| a l IH]; cbn [find]; [discriminate |].
  destruct (f a) eqn:E.
  - intros [= <-]. exists [], l. split; [reflexivity |].
    split; [exact E | intros ? []].
  - intros H. destruct (IH H) as (before & after & -> & Hx & Hbefore).
    exists (a :: before), after. split; [reflexivity |].
    split; [exact Hx |]. intros r [<- | Hr]; [congruence | auto].
Qed.

(** X15. [get_project_name] and [get_track_title] never fail and never
    write.  They return the [name], respectively the [track_title], of
    the first row with the identifier, also when several rows have it,
    and the string "Unknown" when no row has it, which is exactly when
    [validate_project_exists], respectively [validate_track_exists],
    returns [False]. *)
Theorem lookups_first_row (project_id track_id : string) (s : Store) :
  (exists project_name,
     run (get_project_name project_id) s = (inr project_name, s)
     /\ ((exists row,
            first_with (fun r => Project.project_id r = project_id)
              (PROJECTS_FILE s) row
            /\ project_name = Project.name row
            /\ run (validate_project_exists project_id) s = (inr true, s))
         \/ (~ project_exists project_id s
             /\ project_name = "Unknown"
             /\ run (validate_project_exists project_id) s
                = (inr false, s))))
  /\ (exists title,
        run (get_track_title track_id) s = (inr title, s)
        /\ ((exists row,
               first_with (fun r => Track.id r = track_id)
                 (TRACKS_FILE s) row
               /\ title = Track.track_title row
               /\ run (validate_track_exists track_id) s = (inr true, s))
            \/ (~ track_exists track_id s
                /\ title = "Unknown"
                /\ run (validate_track_exists track_id) s
                   = (inr false, s)))).
Proof.
  split.
  - rewrite run_validate_project_exists. unfold get_project_name, run. cbn.
    destruct (find _ (PROJECTS_FILE s)) as [row |] eqn:E.
    + exists (Project.name row). split; [reflexivity |]. left. exists row.
      destruct (find_first_with _ _ _ E) as (before & after & Hl & Hx & Hb).
      split; [| split; [reflexivity |]].
      * exists before, after. split; [exact Hl |].
        split; [apply String.eqb_eq; exact Hx |].
        intros r Hr Hid. apply String.eqb_eq in Hid.
        specialize (Hb r Hr). congruence.
      * assert (has_project project_id s = true) as ->; [| reflexivity].
        apply has_project_iff. exists row. split.
        -- rewrite Hl. apply in_or_app. right. left. reflexivity.
        -- apply String.eqb_eq. exact Hx.
    + exists "Unknown". split; [reflexivity |]. right.
      assert (has_project project_id s = false) as Hno.
      { unfold has_project. destruct (existsb _ _) eqn:Hex; [| reflexivity].
        apply existsb_exists in Hex. destruct Hex as (r & Hin & Hr).
        pose proof (find_none _ _ E r Hin) as Hn. simpl in Hn. congruence. }
      rewrite Hno. split; [apply has_project_false; exact Hno |].
      split; reflexivity.
  - rewrite run_validate_track_exists. unfold get_track_title, run. cbn.
    destruct (find _ (TRACKS_FILE s)) as [row |] eqn:E.
    + exists (Track.track_title row). split; [reflexivity |]. left.
      exists row.
      destruct (find_first_with _ _ _ E) as (before & after & Hl & Hx & Hb).
      split; [| split; [reflexivity |]].
      * exists before, after. split; [exact Hl |].
        split; [apply String.eqb_eq; exact Hx |].
        intros r Hr Hid. apply String.eqb_eq in Hid.
        specialize (Hb r Hr). congruence.
      * assert (has_track track_id s = true) as ->; [| reflexivity].
        apply has_track_iff. exists row. split.
        -- rewrite Hl. apply in_or_app. right. left. reflexivity.
        -- apply String.eqb_eq. exact Hx.
    + exists "Unknown". split; [reflexivity |]. right.
      assert (has_track track_id s = false) as Hno.
      { unfold has_track. destruct (existsb _ _) eqn:Hex; [| reflexivity].
        apply existsb_exists in Hex. destruct Hex as (r & Hin & Hr).
        pose proof (find_none _ _ E r Hin) as Hn. simpl in Hn. congruence. }
      rewrite Hno. split; [apply has_track_false; exact Hno |].
      split; reflexivity.
Qed.

(* ================================================================== *)
(** * A new project and its first track *)
(* ================================================================== *)




(* ================================================================== *)
(** * [test_workflow.py]: adding the selected tracks *)
(* ================================================================== *)

Section Workflow.

Variable today : string.



End Workflow.



(* ================================================================== *)
(** * [update_new_year_project.py] *)
(* ================================================================== *)

Section NewYearFacts.

Variable today : string.

Lemma update_P012_ids projects :
  map Project.project_id (NewYear.update_P012 today projects)
  = map Project.project_id projects.
Proof.
  induction projects as [| r rest IH]; [reflexivity |].
  cbn [NewYear.update_P012].
  destruct (Project.project_id r =? "P012"); cbn [map];
    [reflexivity | rewrite IH; reflexivity].
Qed.

Lemma update_P012_rows projects : forall i row,
  nth_error projects i = Some row ->
  exists row',
    nth_error (NewYear.update_P012 today projects) i = Some row'
    /\ same_but_retitled row row'
    /\ (first_of_project "P012" projects i -> row' = NewYear.retitle today row)
    /\ (~ first_of_project "P012" projects i -> row' = row).
Proof.
  induction projects as [| r rest IH]; intros i row Hi.
  - destruct i; discriminate.
  - cbn [NewYear.update_P012].
    destruct (String.eqb_spec (Project.project_id r) "P012") as [E | E].
    + destruct i as [| k]; cbn [nth_error] in Hi |- *.
      * injection Hi as <-. exists (NewYear.retitle today r).
        split; [reflexivity |]. split; [repeat split |].
        split; [reflexivity |]. intros Hnot. exfalso. apply Hnot.
        split; [exists r; auto | intros j ? Hj; lia].
      * exists row. split; [exact Hi |]. split; [repeat split |].
        split; [| reflexivity].
        intros [_ Hfirst]. exfalso.
        apply (Hfirst 0%nat r); [lia | reflexivity | exact E].
    + destruct i as [| k]; cbn [nth_error] in Hi |- *.
      * injection Hi as <-. exists r. split; [reflexivity |].
        split; [repeat split |]. split; [| reflexivity].
        intros [(row & Hrow & Hid) _]. cbn [nth_error] in Hrow.
        injection Hrow as <-. contradiction.
      * destruct (IH k row Hi) as (row' & Hrow' & Hsame & Hfirst & Hother).
        exists row'. split; [exact Hrow' |]. split; [exact Hsame |].
        assert (first_of_project "P012" (r :: rest) (S k)
                <-> first_of_project "P012" rest k) as Hiff.
        { unfold first_of_project. split; intros [Hex Hbefore].
          - split; [exact Hex |]. intros j x Hj Hx.
            apply (Hbefore (S j) x); [lia | exact Hx].
          - split; [exact Hex |]. intros [| j] x Hj Hx.
            + cbn [nth_error] in Hx. injection Hx as <-. exact E.
            + apply (Hbefore j x); [lia | exact Hx]. }
        rewrite Hiff. auto.
Qed.

Lemma update_P012_absent projects :
  ~ In "P012" (map Project.project_id projects) ->
  NewYear.update_P012 today projects = projects.
Proof.
  induction projects as [| r rest IH]; [reflexivity |].
  cbn [NewYear.update_P012 map In]. intros Hno.
  destruct (String.eqb_spec (Project.project_id r) "P012") as [E | E];
    [exfalso; apply Hno; left; exact E |].
  rewrite IH; [reflexivity |]. intros H. apply Hno. right. exact H.
Qed.

Lemma update_P012_twice projects :
  NewYear.update_P012 today (NewYear.update_P012 today projects)
  = NewYear.update_P012 today projects.
Proof.
  induction projects as [| r rest IH]; [reflexivity |].
  cbn [NewYear.update_P012].
  destruct (Project.project_id r =? "P012") eqn:E;
    cbn [NewYear.update_P012].
  - change (Project.project_id (NewYear.retitle today r))
      with (Project.project_id r). rewrite E. reflexivity.
  - rewrite E, IH. reflexivity.
Qed.

Lemma max_id_loop_ids rows : forall rows' acc,
  map Project.project_id rows' = map Project.project_id rows ->
  max_id_loop rows' acc = max_id_loop rows acc.
Proof.
  induction rows as [| r rest IH]; intros [| r' rest'] acc H;
    try discriminate; [reflexivity |].
  cbn [map] in H. injection H as Hid Hrest.
  cbn [max_id_loop]. rewrite Hid.
  destruct (Py.int _); [apply IH; exact Hrest | reflexivity].
Qed.

End NewYearFacts.

(** X19. [update_project] of [update_new_year_project.py] leaves in
    [projects_backup.csv] the table it found and no
    [projects_updated.csv].  The new [projects.csv] has the same rows in
    the same order, except that the first row of P012 has the new name,
    description and keywords and [modified_on = today]; its other
    columns, later rows of P012 and all other rows are unchanged, so
    that the identifiers, and with them the next identifier of
    [create_project], are the same.  Without a row of P012 the table is
    rewritten as it was. *)
Theorem new_year_update_project_frame (today : string) (f : NewYear.Files) :
  let f' := NewYear.update_project today f in
  NewYear.projects_backup_csv f' = Some (NewYear.projects_csv f)
  /\ NewYear.projects_updated_csv f' = None
  /\ map Project.project_id (NewYear.projects_csv f')
     = map Project.project_id (NewYear.projects_csv f)
  /\ (forall acc, max_id_loop (NewYear.projects_csv f') acc
                  = max_id_loop (NewYear.projects_csv f) acc)
  /\ (forall i row,
        nth_error (NewYear.projects_csv f) i = Some row ->
        exists row',
          nth_error (NewYear.projects_csv f') i = Some row'
          /\ same_but_retitled row row'
          /\ (first_of_project "P012" (NewYear.projects_csv f) i ->
              Project.name row' = "Swinging into the New Year"
              /\ Project.modified_on row' = today
              /\ row' = NewYear.retitle today row)
          /\ (~ first_of_project "P012" (NewYear.projects_csv f) i ->
              row' = row))
  /\ (~ In "P012" (map Project.project_id (NewYear.projects_csv f)) ->
      NewYear.projects_csv f' = NewYear.projects_csv f).
Proof.
  cbv zeta. unfold NewYear.update_project. cbv zeta.
  cbn [NewYear.projects_csv NewYear.projects_updated_csv
       NewYear.projects_backup_csv].
  split; [reflexivity |]. split; [reflexivity |].
  split; [apply update_P012_ids |].
  split; [intros acc; apply max_id_loop_ids, update_P012_ids |].
  split; [| apply update_P012_absent].
  intros i row Hi.
  destruct (update_P012_rows today _ i row Hi)
    as (row' & Hrow' & Hsame & Hfirst & Hother).
  exists row'. split; [exact Hrow' |]. split; [exact Hsame |].
  split; [| exact Hother].
  intros H. rewrite (Hfirst H). repeat split.
Qed.

(** X20. A second run of [update_project] overwrites the backup: after
    it [projects_backup.csv] holds the table the first run wrote, not
    the table before the first run; run on the same day it leaves the
    [projects.csv] of the first run. *)
Theorem new_year_update_project_twice (today today' : string)
    (f : NewYear.Files) :
  let f1 := NewYear.update_project today f in
  let f2 := NewYear.update_project today' f1 in
  NewYear.projects_backup_csv f2 = Some (NewYear.projects_csv f1)
  /\ (today' = today -> NewYear.projects_csv f2 = NewYear.projects_csv f1)
  /\ (In "P012" (map Project.project_id (NewYear.projects_csv f)) ->
      Forall (fun row => Project.project_id row = "P012" ->
                         Project.name row <> "Swinging into the New Year")
        (NewYear.projects_csv f) ->
      NewYear.projects_backup_csv f2 <> Some (NewYear.projects_csv f)).
Proof.
  cbv zeta. unfold NewYear.update_project. cbv zeta.
  cbn [NewYear.projects_csv NewYear.projects_updated_csv
       NewYear.projects_backup_csv].
  split; [reflexivity |]. split; [intros ->; apply update_P012_twice |].
  intros Hin Hname [= Heq]. revert Hin Hname Heq.
  induction (NewYear.projects_csv f) as [| r rest IH]; [intros [] |].
  cbn [NewYear.update_P012 map In].
  destruct (String.eqb_spec (Project.project_id r) "P012") as [E | E].
  - intros _ Hname [= Hr]. inversion Hname as [| ? ? Hhead _]; subst.
    apply (Hhead E). rewrite <- Hr. reflexivity.
  - intros [Hin | Hin] Hname [= Heq]; [congruence |].
    inversion Hname; subst. apply IH; assumption.
Qed.

(* ================================================================== *)
(** * The further theorems at concrete files *)
(* ================================================================== *)




Lemma add_track_position_above_all_at_new_year :
  exists p,
    PROJECT_TRACKS_FILE
      (files_after (add_track "2025-02-01" "P001" "T1" "n") Fixture.new_year)
    = PROJECT_TRACKS_FILE Fixture.new_year
      ++ [membership_row "2025-02-01" "P001" "T1" "n" p]
    /\ (1 <= p)%Z.
Proof.
  destruct (add_track_position_above_all "2025-02-01" "P001" "T1" "n"
              Fixture.new_year eq_refl) as (p & Hrows & Hp & _).
  exists p. split; assumption.
Defined.


Lemma list_tracks_stable_at_new_year :
  exists listed tracks,
    outcome (list_tracks "P012") Fixture.new_year = inr listed
    /\ map Entry.track_id listed = ["T2"; "T9"]
    /\ forall p,
         filter (at_position p) listed = filter (at_position p) tracks.
Proof.
  eexists.
  destruct (list_tracks_stable "P012" Fixture.new_year _ eq_refl)
    as (tracks & _ & Hstable).
  exists tracks. split; [reflexivity |]. split; [reflexivity | exact Hstable].
Defined.



Lemma add_then_remove_restores_at_empty_project :
  PROJECT_TRACKS_FILE
    (files_after (remove_track "2025-02-02" "P001" "T1")
       (files_after (add_track "2025-02-01" "P001" "T1" "n")
          Sample.empty_project))
  = PROJECT_TRACKS_FILE Sample.empty_project.
Proof.
  exact (proj1 (proj2 (add_then_remove_restores "2025-02-01" "2025-02-02"
                         "P001" "T1" "n" Sample.empty_project eq_refl))).
Defined.

Lemma add_track_twice_conflict_at_empty_project :
  outcome (add_track "2025-02-02" "P001" "T1" "again")
    (files_after (add_track "2025-02-01" "P001" "T1" "n")
       Sample.empty_project)
  = inl AlreadyInProject.
Proof.
  unfold outcome.
  rewrite (add_track_twice_conflict "2025-02-01" "2025-02-02" "P001" "T1"
             "n" "again" Sample.empty_project eq_refl).
  reflexivity.
Defined.

Lemma remove_track_twice_not_found_at_duplicate_key :
  outcome (remove_track "2025-02-03" "P001" "T1")
    (files_after (remove_track "2025-02-02" "P001" "T1")
       Sample.duplicate_key)
  = inl NotFoundInProject.
Proof.
  unfold outcome.
  rewrite (proj2 (remove_track_twice_not_found "2025-02-02" "2025-02-03"
                    "P001" "T1" Sample.duplicate_key eq_refl)).
  reflexivity.
Defined.

(** A history from [Fixture.dense]: a project is created, a track added
    to it, and a track removed from P012. *)
Lemma fixture_history :
  reachable any_command Fixture.dense
    (exec (RemoveTrack "2025-02-03" "P012" "T2")
       (exec (AddTrack "2025-02-02" "P013" "T1" "n")
          (exec (CreateProject (Sample.call "2025-02-01")) Fixture.dense))).
Proof. repeat (apply reach_step; [| exact I]). apply reach_start. Defined.

Lemma history_keeps_catalog_and_projects_at_dense :
  TRACKS_FILE
    (exec (RemoveTrack "2025-02-03" "P012" "T2")
       (exec (AddTrack "2025-02-02" "P013" "T1" "n")
          (exec (CreateProject (Sample.call "2025-02-01")) Fixture.dense)))
  = Sample.catalog.
Proof.
  exact (proj1 (history_keeps_catalog_and_projects _ _ fixture_history)).
Defined.

Lemma fixture_dense_references_projects :
  memberships_reference_projects Fixture.dense.
Proof.
  intros r [<- | [<- | [<- | []]]]; apply has_project_iff; reflexivity.
Defined.

Lemma fixture_dense_references_tracks :
  memberships_reference_tracks Fixture.dense.
Proof.
  intros r [<- | [<- | [<- | []]]]; apply has_track_iff; reflexivity.
Defined.

Lemma history_keeps_references_at_dense :
  let s := exec (RemoveTrack "2025-02-03" "P012" "T2")
             (exec (AddTrack "2025-02-02" "P013" "T1" "n")
                (exec (CreateProject (Sample.call "2025-02-01"))
                   Fixture.dense)) in
  memberships_reference_projects s /\ memberships_reference_tracks s.
Proof.
  cbv zeta.
  destruct (history_keeps_references _ _ fixture_history) as [Hp Ht].
  split; [exact (Hp fixture_dense_references_projects)
         | exact (Ht fixture_dense_references_tracks)].
Defined.

Lemma fixture_dense_unique_ids : NoDup (project_ids Fixture.dense).
Proof.
  vm_compute. constructor; [| constructor; [| constructor]].
  - intros [H | []]. discriminate.
  - intros [].
Defined.

Lemma history_keeps_unique_project_ids_at_dense :
  NoDup (project_ids
           (exec (RemoveTrack "2025-02-03" "P012" "T2")
              (exec (AddTrack "2025-02-02" "P013" "T1" "n")
                 (exec (CreateProject (Sample.call "2025-02-01"))
                    Fixture.dense)))).
Proof.
  exact (proj2 (history_keeps_unique_project_ids Fixture.dense _ eq_refl
                  fixture_dense_unique_ids fixture_history)).
Defined.




Lemma update_project_modified_missing_at_two_projects :
  files_after (update_project_modified "2025-02-01" "P404")
    Sample.two_projects = Sample.two_projects.
Proof.
  apply (proj1 (proj2 (update_project_modified_missing_and_twice
                         "2025-02-01" "P404" Sample.two_projects))).
  apply has_project_false. reflexivity.
Defined.






Lemma new_year_update_project_frame_at_data :
  NewYear.projects_backup_csv
    (NewYear.update_project "2025-12-01" Fixture.data)
  = Some (NewYear.projects_csv Fixture.data)
  /\ nth_error (NewYear.projects_csv
                  (NewYear.update_project "2025-12-01" Fixture.data)) 2
     = Some (Fixture.winter "P012" "2025-01-02").
Proof.
  destruct (new_year_update_project_frame "2025-12-01" Fixture.data)
    as (Hbackup & _ & _ & _ & Hrows & _).
  split; [exact Hbackup |].
  destruct (Hrows 2%nat (Fixture.winter "P012" "2025-01-02") eq_refl)
    as (row' & Hrow' & _ & _ & Hkeep).
  rewrite Hrow'. f_equal. apply Hkeep.
  intros [_ Hfirst].
  apply (Hfirst 1%nat (Fixture.winter "P012" "2025-01-01"));
    [lia | reflexivity | reflexivity].
Defined.

Lemma new_year_update_project_twice_at_data :
  NewYear.projects_csv
    (NewYear.update_project "2025-12-01"
       (NewYear.update_project "2025-12-01" Fixture.data))
  = NewYear.projects_csv (NewYear.update_project "2025-12-01" Fixture.data)
  /\ NewYear.projects_backup_csv
       (NewYear.update_project "2025-12-01"
          (NewYear.update_project "2025-12-01" Fixture.data))
     <> Some (NewYear.projects_csv Fixture.data).
Proof.
  destruct (new_year_update_project_twice "2025-12-01" "2025-12-01"
              Fixture.data) as (_ & Hsame & Hlost).
  split; [exact (Hsame eq_refl) |]. apply Hlost.
  - right. left. reflexivity.
  - cbn [Fixture.data NewYear.projects_csv].
    repeat (apply Forall_cons; [intros _; vm_compute; discriminate |]).
    apply Forall_nil.
Defined.

(* ================================================================== *)
(** * [test_workflow.py]: the details of a track *)
(* ================================================================== *)

Section Lines.

Lemma split_nonempty c s : PyStr.split c s <> [].
Proof.
  destruct s as [| a r]; cbn [PyStr.split]; [discriminate |].
  destruct (PyStr.split c r); [discriminate |].
  destruct (Ascii.eqb a c); discriminate.
Qed.

Lemma split_without c s :
  without_char c s = true -> PyStr.split c s = [s].
Proof.
  induction s as [| a r IH]; cbn [without_char PyStr.split]; [reflexivity |].
  intros H. apply andb_true_iff in H. destruct H as [Ha Hr].
  rewrite (IH Hr). destruct (Ascii.eqb a c); [discriminate | reflexivity].
Qed.

Lemma split_piece c piece rest :
  without_char c piece = true ->
  PyStr.split c (piece ++ String c rest) = piece :: PyStr.split c rest.
Proof.
  induction piece as [| a r IH]; cbn [without_char]; intros H.
  - change (EmptyString ++ String c rest)%string with (String c rest).
    cbn [PyStr.split]. rewrite Ascii.eqb_refl.
    destruct (PyStr.split c rest) eqn:E; [| reflexivity].
    exfalso. exact (split_nonempty _ _ E).
  - apply andb_true_iff in H. destruct H as [Ha Hr].
    change (String a r ++ String c rest)%string
      with (String a (r ++ String c rest)).
    cbn [PyStr.split]. rewrite (IH Hr).
    destruct (Ascii.eqb a c); [discriminate | reflexivity].
Qed.

(** [','.join(fields).split(',') == fields] for pieces without comma. *)
Lemma split_concat c fields :
  fields <> [] ->
  Forall (fun piece => without_char c piece = true) fields ->
  PyStr.split c (String.concat (String c EmptyString) fields) = fields.
Proof.
  induction fields as [| piece rest IH]; [congruence |].
  intros _ Hall. inversion Hall as [| ? ? Hpiece Hrest]; subst.
  destruct rest as [| piece' rest'].
  - cbn [String.concat]. apply split_without. exact Hpiece.
  - change (String.concat (String c EmptyString) (piece :: piece' :: rest'))
      with (piece ++ String c EmptyString
            ++ String.concat (String c EmptyString) (piece' :: rest'))%string.
    change (String c EmptyString
            ++ String.concat (String c EmptyString) (piece' :: rest'))%string
      with (String c (String.concat (String c EmptyString) (piece' :: rest'))).
    rewrite (split_piece _ _ _ Hpiece), IH; [reflexivity | discriminate |].
    exact Hrest.
Qed.

Lemma split_length c s : length (PyStr.split c s) = S (count_char c s).
Proof.
  induction s as [| a r IH]; [reflexivity |].
  cbn [PyStr.split count_char].
  destruct (PyStr.split c r) as [| piece pieces] eqn:E;
    [exfalso; exact (split_nonempty _ _ E) |].
  cbn [length] in IH.
  destruct (Ascii.eqb a c); cbn [length Nat.add]; lia.
Qed.

Lemma get_track_details_joined stdout fields :
  stdout <> EmptyString ->
  Py.strip stdout = String.concat "," fields ->
  Forall (fun piece => without_char "," piece = true) fields ->
  (12 <= length fields)%nat ->
  get_track_details stdout
  = Some {| Details.id := field fields 0;
            Details.track_title := field fields 1;
            Details.track_description :=
              PyStr.strip_char double_quote (field fields 2);
            Details.bpm := field fields 3;
            Details.duration := field fields 4;
            Details.album_title := field fields 5;
            Details.library_name := field fields 6;
            Details.composer := field fields 7;
            Details.genre := field fields 8;
            Details.additional_genres := field fields 9;
            Details.apm_release_date := field fields 10;
            Details.has_stems := field fields 11 |}.
Proof.
  intros Hne Hstrip Hfree Hlen. unfold get_track_details.
  destruct stdout as [| a r]; [congruence |]. cbv zeta.
  rewrite Hstrip, split_concat; [| intros ->; cbn in Hlen; lia | exact Hfree].
  destruct (Nat.leb_spec 12 (length fields)); [| lia].
  destruct (Nat.ltb_spec 11 (length fields)); [reflexivity | lia].
Qed.




End Lines.

(** X21. [get_track_details] returns [None] exactly when [grep] printed
    nothing or what it printed has, white space at both ends apart,
    fewer than 11 commas; otherwise it returns a dictionary.  The branch
    that gives [has_stems] the value 'unknown' is never taken. *)
Theorem get_track_details_none_iff (stdout : string) :
  (get_track_details stdout = None
   <-> stdout = EmptyString
       \/ (count_char "," (Py.strip stdout) < 11)%nat)
  /\ forall track, get_track_details stdout = Some track ->
       Details.has_stems track
       = field (PyStr.split "," (Py.strip stdout)) 11.
Proof.
  unfold get_track_details.
  destruct stdout as [| a r]; [split; [tauto | discriminate] |].
  cbv zeta. pose proof (split_length "," (Py.strip (String a r))) as Hlen.
  destruct (Nat.leb_spec 12 (length (PyStr.split "," (Py.strip (String a r)))))
    as [Hge | Hlt].
  - split.
    + split; [discriminate |]. intros [H | H]; [discriminate | lia].
    + intros track [= <-]. cbn [Details.has_stems].
      destruct (Nat.ltb_spec 11
                  (length (PyStr.split "," (Py.strip (String a r)))));
        [reflexivity | lia].
  - split; [| discriminate]. split; [| reflexivity].
    intros _. right. lia.
Qed.

(** X22. When what [grep] printed is, white space at both ends apart,
    12 or more pieces without comma joined by commas,
    [get_track_details] returns the first twelve pieces, the third one
    without the double quotes at its ends, and ignores the others:
    splitting at the commas undoes the join, whatever quoting the line
    has. *)
Theorem get_track_details_first_twelve (stdout : string)
    (fields : list string) :
  stdout <> EmptyString ->
  Py.strip stdout = String.concat "," fields ->
  Forall (fun piece => without_char "," piece = true) fields ->
  (12 <= length fields)%nat ->
  get_track_details stdout
  = Some {| Details.id := field fields 0;
            Details.track_title := field fields 1;
            Details.track_description :=
              PyStr.strip_char double_quote (field fields 2);
            Details.bpm := field fields 3;
            Details.duration := field fields 4;
            Details.album_title := field fields 5;
            Details.library_name := field fields 6;
            Details.composer := field fields 7;
            Details.genre := field fields 8;
            Details.additional_genres := field fields 9;
            Details.apm_release_date := field fields 10;
            Details.has_stems := field fields 11 |}.
Proof.
  intros Hne Hstrip Hfree Hlen. unfold get_track_details.
  destruct stdout as [| a r]; [congruence |]. cbv zeta.
  assert (fields <> []) as Hnil by (intros ->; cbn in Hlen; lia).
  rewrite Hstrip, (split_concat "," fields Hnil Hfree).
  destruct (Nat.leb_spec 12 (length fields)); [| lia].
  destruct (Nat.ltb_spec 11 (length fields)); [reflexivity | lia].
Qed.

(** X23. For a line of [tracks.csv] of more than 12 pieces, which is
    what a quoted description with commas gives, the two test scripts
    read [has_stems] from different pieces: [get_track_details] of
    [test_workflow.py], on what [grep] printed for the line, takes the
    twelfth piece, step 3 of [test_detailed.py] takes the last one.  For
    a line of exactly 12 pieces they agree. *)
Theorem has_stems_twelfth_or_last (stdout line : string)
    (fields : list string) :
  stdout <> EmptyString ->
  Py.strip stdout = line ->
  line = String.concat "," fields ->
  Forall (fun piece => without_char "," piece = true) fields ->
  (12 <= length fields)%nat ->
  exists track,
    get_track_details stdout = Some track
    /\ Details.has_stems track = nth 11 fields EmptyString
    /\ has_stems_of_line line = nth (length fields - 1) fields EmptyString
    /\ (length fields = 12%nat ->
        Details.has_stems track = has_stems_of_line line).
Proof.
  intros Hne Hstrip Hline Hfree Hlen.
  assert (fields <> []) as Hnil by (intros ->; cbn in Hlen; lia).
  pose proof (get_track_details_joined stdout fields Hne
                (eq_trans Hstrip Hline) Hfree Hlen) as Hdetails.
  assert (has_stems_of_line line = nth (length fields - 1) fields EmptyString)
    as Hlast.
  { unfold has_stems_of_line. cbv zeta.
    rewrite Hline, split_concat by assumption.
    destruct (Nat.ltb_spec 11 (length fields)); [| lia].
    clear -Hnil. induction fields as [| f rest IH]; [congruence |].
    destruct rest as [| f' rest']; [reflexivity |].
    cbn [last length Nat.sub] in *. rewrite IH by discriminate.
    rewrite Nat.sub_0_r. reflexivity. }
  eexists. split; [exact Hdetails |]. cbn [Details.has_stems].
  split; [reflexivity |]. split; [exact Hlast |].
  intros H12. rewrite Hlast, H12. reflexivity.
Qed.



(** The line that [add_good_rockin_track.py] appends, as [grep] prints
    it: the commas of its description move the columns. *)
Example good_rockin_details :
  option_map Details.has_stems
    (get_track_details (GoodRockin.new_line ++ String "010" EmptyString))
  = Some "1352;2131;2161"
  /\ has_stems_of_line GoodRockin.new_line = "true".
Proof. split; reflexivity. Qed.

Lemma get_track_details_none_iff_at_short_line :
  get_track_details "RCK_RCK_0100_00101,Good Rockin Tonight A,148" = None.
Proof.
  apply (proj1 (get_track_details_none_iff
                  "RCK_RCK_0100_00101,Good Rockin Tonight A,148")).
  right. vm_compute. lia.
Defined.

Lemma good_rockin_pieces :
  Forall (fun piece => without_char "," piece = true)
    (PyStr.split "," GoodRockin.new_line).
Proof.
  apply Forall_forall. apply (proj1 (forallb_forall _ _)). reflexivity.
Defined.

Lemma get_track_details_first_twelve_at_good_rockin :
  option_map Details.id
    (get_track_details (GoodRockin.new_line ++ String "010" EmptyString))
  = Some "RCK_RCK_0100_00101".
Proof.
  rewrite (get_track_details_first_twelve
             (GoodRockin.new_line ++ String "010" EmptyString)
             (PyStr.split "," GoodRockin.new_line)).
  - reflexivity.
  - discriminate.
  - reflexivity.
  - exact good_rockin_pieces.
  - vm_compute. lia.
Defined.

Lemma has_stems_twelfth_or_last_at_good_rockin :
  exists track,
    get_track_details (GoodRockin.new_line ++ String "010" EmptyString)
    = Some track
    /\ Details.has_stems track = "1352;2131;2161"
    /\ has_stems_of_line GoodRockin.new_line = "true".
Proof.
  destruct (has_stems_twelfth_or_last
              (GoodRockin.new_line ++ String "010" EmptyString)
              GoodRockin.new_line (PyStr.split "," GoodRockin.new_line))
    as (track & Htrack & H12 & Hlast & _).
  - discriminate.
  - reflexivity.
  - reflexivity.
  - exact good_rockin_pieces.
  - vm_compute. lia.
  - exists track. split; [exact Htrack |]. split; [exact H12 | exact Hlast].
Defined.

